(** * jsonstore: the HTTP client of [jsonstore/client.py]

    A shallow embedding of the [Client] class and of the slice of Python
    it runs on: Python values, the exception classes named by the
    [except] clauses, the [json] conversion table and the [requests]
    calls.  Statements of Python become computations in a state and
    exception monad whose state holds the client object, the remote
    service and the trace of requests put on the wire.

    Conventions.
    - JSON text is represented by its syntax tree ([json]), numbers by
      the value they denote; a body that is not JSON text is
      [Undecodable].
    - A float is represented by its [repr], the shortest decimal text
      that reads back to it (["1.5"], ["1e+22"], ["-0.0"], ["nan"],
      ["inf"]); arithmetic on floats is not needed.
    - A Python value is a tree whose containers may hold references back
      to a container they sit in ([PBack]), which is how a list or a
      dictionary that contains itself is written.
    - The remote service is a parameter: a function from the request and
      the service state to an answer (a [Response] or a raised
      exception) and a new service state. *)

From Stdlib Require Import ZArith.
From stdpp Require Import base option list strings pretty gmap.

Local Open Scope Z_scope.
Set Warnings "-register-all".

(** ** Python values *)

Inductive pyval : Type :=
  | PNone
  | PBool (b : bool)
  | PInt (n : Z)
  | PStr (s : string)
  | PList (items : list pyval)
  | PTuple (items : list pyval)
  | PDict (entries : list (pyval * pyval))
  | PBytes (raw : string)
  | PFloat (repr : string)
  | PBack.

(** [PBack] stands, inside a list or a dictionary, for a container that
    this position sits in: [a = []; a.append(a)] is [PList [PBack]], and
    [d = {}; d['self'] = d] is [PDict [(PStr "self", PBack)]].  It
    denotes nothing outside a container; the operations below, which the
    client only applies to decoded bodies, answer on it as on a list
    whose items are out of sight. *)

(** [type(v).__name__] *)
Definition type_name (v : pyval) : string :=
  match v with
  | PNone => "NoneType"
  | PBool _ => "bool"
  | PInt _ => "int"
  | PStr _ => "str"
  | PList _ => "list"
  | PTuple _ => "tuple"
  | PDict _ => "dict"
  | PBytes _ => "bytes"
  | PFloat _ => "float"
  | PBack => "list"
  end.

(** [bool(v)], the test behind [not v].  Both zeros of the floats are
    falsy, [nan] is truthy; a container that contains itself is not
    empty. *)
Definition truthy (v : pyval) : bool :=
  match v with
  | PNone => false
  | PBool b => b
  | PInt n => negb (n =? 0)
  | PStr s => negb (String.eqb s "")
  | PList l | PTuple l => negb (length l =? 0)%nat
  | PDict d => negb (length d =? 0)%nat
  | PBytes s => negb (String.eqb s "")
  | PFloat r => negb (String.eqb r "0.0" || String.eqb r "-0.0")
  | PBack => true
  end.

(** [s == v] for a [str] [s]: a string is equal to strings only. *)
Definition str_eq (s : string) (v : pyval) : bool :=
  match v with
  | PStr s' => String.eqb s s'
  | _ => false
  end.

(** [sub in s] on strings: [sub] occurs in [s] as a contiguous run. *)
Fixpoint str_contains (sub s : string) : bool :=
  String.prefix sub s ||
  match s with
  | EmptyString => false
  | String _ rest => str_contains sub rest
  end.

(** Dictionaries keep insertion order.  The client only ever looks up
    string keys. *)
Fixpoint dict_get (k : string) (d : list (pyval * pyval)) : option pyval :=
  match d with
  | [] => None
  | (k', v) :: rest => if str_eq k k' then Some v else dict_get k rest
  end.

(** [d[k] = v]: overwrite in place when the key exists, append otherwise. *)
Fixpoint dict_set (k : string) (v : pyval) (d : list (pyval * pyval))
  : list (pyval * pyval) :=
  match d with
  | [] => [(PStr k, v)]
  | (k', v') :: rest =>
      if str_eq k k' then (k', v) :: rest else (k', v') :: dict_set k v rest
  end.

(** ** Exceptions *)

Inductive exn_class : Type :=
  | TypeError
  | ValueError
  | JSONDecodeError
  | KeyError
  | RequestException
  | HTTPError
  | ConnectionError
  | Timeout
  | JsonstoreError.

#[global] Instance exn_class_eq_dec : EqDecision exn_class.
Proof. solve_decision. Defined.

(** Direct bases, up to [Exception].  [JSONDecodeError] is the class
    raised by [Response.json()]: it derives from [ValueError], and in
    recent versions of the library from [RequestException] as well. *)
Definition bases (c : exn_class) : list exn_class :=
  match c with
  | JSONDecodeError => [RequestException; ValueError]
  | HTTPError | ConnectionError | Timeout => [RequestException]
  | _ => []
  end.

Fixpoint issubclass_upto (depth : nat) (c d : exn_class) : bool :=
  bool_decide (c = d) ||
  match depth with
  | O => false
  | S depth' => existsb (fun b => issubclass_upto depth' b d) (bases c)
  end.

Definition issubclass : exn_class -> exn_class -> bool := issubclass_upto 9.

(** An exception object: its class and [str(e)]. *)
Record exn : Type := Exn { exn_type : exn_class; exn_str : string }.

Definition isinstance (e : exn) (classes : list exn_class) : bool :=
  existsb (issubclass (exn_type e)) classes.

(** ** JSON documents and the [json] module *)

Inductive json : Type :=
  | JNull
  | JBool (b : bool)
  | JNumber (n : Z)
  | JString (s : string)
  | JArray (items : list json)
  | JObject (members : list (string * json))
  | JFloat (repr : string).

(** [JNumber] is a number written without fraction or exponent, which
    decodes to an [int]; [JFloat] is any other number, and [NaN],
    [Infinity] and [-Infinity], given by the [repr] of the [float] it
    decodes to. *)

(** The text [json.dumps] writes for a float: its [repr], but for the
    three specials. *)
Definition float_text (repr : string) : string :=
  if String.eqb repr "nan" then "NaN"
  else if String.eqb repr "inf" then "Infinity"
  else if String.eqb repr "-inf" then "-Infinity"
  else repr.

(** The key of a dictionary entry as [json.dumps] writes it: [str] keys
    as they are, [int], [float], [bool] and [None] keys coerced to
    strings, any other key refused. *)
Definition dumps_key (k : pyval) : option string :=
  match k with
  | PStr s => Some s
  | PInt n => Some (pretty n)
  | PFloat r => Some (float_text r)
  | PBool true => Some "true"
  | PBool false => Some "false"
  | PNone => Some "null"
  | _ => None
  end.

(** [json.dumps]: [None] stands for the exception raised on an object or
    a key that cannot be encoded, or on a container met again inside
    itself. *)
Fixpoint dumps (v : pyval) : option json :=
  match v with
  | PNone => Some JNull
  | PBool b => Some (JBool b)
  | PInt n => Some (JNumber n)
  | PStr s => Some (JString s)
  | PList l | PTuple l => JArray <$> mapM dumps l
  | PDict d =>
      JObject <$>
        mapM (fun '(k, x) =>
                match dumps_key k, dumps x with
                | Some name, Some j => Some (name, j)
                | _, _ => None
                end) d
  | PBytes _ => None
  | PFloat r => Some (JFloat r)
  | PBack => None
  end.

(** The class of the exception [json.dumps] raises when it fails: the
    first one the encoder meets going through the value in order, a
    [ValueError] on a container met again inside itself, a [TypeError] on
    an object or a key it cannot encode.  In a dictionary entry the key is
    looked at before the value. *)
Fixpoint dumps_raises (v : pyval) : exn_class :=
  match v with
  | PList l | PTuple l =>
      (fix first (l : list pyval) : exn_class :=
         match l with
         | [] => TypeError
         | x :: rest =>
             match dumps x with
             | None => dumps_raises x
             | Some _ => first rest
             end
         end) l
  | PDict d =>
      (fix first (d : list (pyval * pyval)) : exn_class :=
         match d with
         | [] => TypeError
         | (k, x) :: rest =>
             match dumps_key k, dumps x with
             | None, _ => TypeError
             | Some _, None => dumps_raises x
             | Some _, Some _ => first rest
             end
         end) d
  | PBack => ValueError
  | _ => TypeError
  end.

(** [v] contains itself: somewhere in it a container is met again. *)
Fixpoint has_back (v : pyval) : bool :=
  match v with
  | PBack => true
  | PList l | PTuple l => existsb has_back l
  | PDict d => existsb (fun '(k, x) => has_back k || has_back x) d
  | _ => false
  end.

(** [json.loads] on the syntax tree: objects become dictionaries filled
    member by member, so the last of several equal names wins. *)
Fixpoint loads (j : json) : pyval :=
  match j with
  | JNull => PNone
  | JBool b => PBool b
  | JNumber n => PInt n
  | JString s => PStr s
  | JArray l => PList (map loads l)
  | JObject members =>
      PDict (fold_left (fun d '(name, x) => dict_set name (loads x) d)
               members [])
  | JFloat r => PFloat r
  end.

(** ** What travels on the wire *)

Inductive http_method : Type := GET | POST | PUT | DELETE.

#[global] Instance http_method_eq_dec : EqDecision http_method.
Proof. solve_decision. Defined.

(** One call of [requests.get], [requests.post], [requests.put] or
    [requests.delete]: the verb, the URL and the keyword arguments, each
    [None] when the caller did not pass it. *)
Record Request : Type := {
  req_method : http_method;
  req_url : string;
  req_data : option json;
  req_headers : option (gmap string string);
  req_timeout : option pyval
}.

Inductive payload : Type :=
  | Undecodable (diagnostic : string)
  | Document (doc : json).

(** A [requests.Response], as far as the client looks at it. *)
Record Response : Type := {
  status_code : Z;
  reason : string;
  url : string;
  content : payload
}.

(** An object handed to [__check_response]: a [Response] or any other
    value. *)
Inductive pyobj : Type :=
  | OResponse (r : Response)
  | OValue (v : pyval).

(** ** The state and exception monad *)

Inductive outcome (A : Type) : Type :=
  | Returns (a : A)
  | Raises (e : exn).
Arguments Returns {A} a.
Arguments Raises {A} e.

(** The client object: its two private attributes. *)
Record ClientObj : Type := {
  base_url : string;
  headers : gmap string string
}.

Section Interp.

Context {Server : Type}.

(** What is live during a call: the client object, the remote service,
    and the requests sent so far, oldest first. *)
Record World : Type := {
  self : ClientObj;
  server : Server;
  sent : list Request
}.

Definition Py (A : Type) : Type := World -> outcome A * World.

Definition ret {A} (a : A) : Py A := fun w => (Returns a, w).

Definition raise {A} (c : exn_class) (msg : string) : Py A :=
  fun w => (Raises (Exn c msg), w).

Definition bind {A B} (m : Py A) (k : A -> Py B) : Py B :=
  fun w =>
    match m w with
    | (Returns a, w') => k a w'
    | (Raises e, w') => (Raises e, w')
    end.

(** [try: body / except classes as e: handler e] *)
Definition try_except {A} (body : Py A) (classes : list exn_class)
    (handler : exn -> Py A) : Py A :=
  fun w =>
    match body w with
    | (Raises e, w') =>
        if isinstance e classes then handler e w' else (Raises e, w')
    | r => r
    end.

(** Reading an attribute of [self]. *)
Definition getattr {A} (field : ClientObj -> A) : Py A :=
  fun w => (Returns (field (self w)), w).

(** [item in container] for a [str] item. *)
Definition py_contains (item : string) (container : pyval) : Py bool :=
  match container with
  | PDict d => ret (bool_decide (is_Some (dict_get item d)))
  | PList l | PTuple l => ret (existsb (str_eq item) l)
  | PStr s => ret (str_contains item s)
  | PBytes _ => raise TypeError "a bytes-like object is required, not 'str'"
  | PNone | PBool _ | PInt _ | PFloat _ =>
      raise TypeError
        ("argument of type '" +:+ type_name container +:+ "' is not iterable")
  | PBack => ret false
  end.

(** [container[key]] for a [str] key. *)
Definition py_getitem (container : pyval) (key : string) : Py pyval :=
  match container with
  | PDict d =>
      match dict_get key d with
      | Some v => ret v
      | None => raise KeyError ("'" +:+ key +:+ "'")
      end
  | PList _ | PBack =>
      raise TypeError "list indices must be integers or slices, not str"
  | PTuple _ => raise TypeError "tuple indices must be integers or slices, not str"
  | PStr _ => raise TypeError "string indices must be integers"
  | PBytes _ => raise TypeError "byte indices must be integers or slices, not str"
  | PNone | PBool _ | PInt _ | PFloat _ =>
      raise TypeError
        ("'" +:+ type_name container +:+ "' object is not subscriptable")
  end.

End Interp.

Arguments World : clear implicits.
Arguments Py : clear implicits.

Declare Scope py_scope.
Delimit Scope py_scope with py.
Notation "'do' x <- m ; k" := (bind m (fun x => k))
  (at level 10, x name, m at level 100, k at level 200) : py_scope.
Notation "'run' m ; k" := (bind m (fun _ => k))
  (at level 10, m at level 100, k at level 200) : py_scope.

Local Open Scope py_scope.

(** ** The [requests] library

    The calls the client makes, after the library's documented
    behaviour.  The library reads its keyword arguments and does not
    modify them, so the headers are passed by value. *)

Module requests.

Section Api.

Context {Server : Type}.
Variable transport : Request -> Server -> outcome Response * Server.

(** Every call goes on the wire once: it is appended to the trace and
    the service answers it. *)
Definition request (method : http_method) (url : string)
    (data : option json) (headers : option (gmap string string))
    (timeout : option pyval) : Py Server Response :=
  fun w =>
    let req := {| req_method := method; req_url := url; req_data := data;
                  req_headers := headers; req_timeout := timeout |} in
    let (answer, srv) := transport req (server w) in
    (answer, {| self := self w; server := srv; sent := sent w ++ [req] |}).

Definition get (url : string) (headers : option (gmap string string))
    (timeout : option pyval) : Py Server Response :=
  request GET url None headers timeout.

Definition post (url : string) (data : option json)
    (headers : option (gmap string string)) (timeout : option pyval)
  : Py Server Response :=
  request POST url data headers timeout.

Definition put (url : string) (data : option json)
    (headers : option (gmap string string)) (timeout : option pyval)
  : Py Server Response :=
  request PUT url data headers timeout.

Definition delete (url : string) (headers : option (gmap string string))
    (timeout : option pyval) : Py Server Response :=
  request DELETE url None headers timeout.

(** [Response.raise_for_status]: an [HTTPError] for the 4xx and 5xx
    codes, nothing otherwise. *)
Definition raise_for_status (r : Response) : Py Server unit :=
  let http_error_msg :=
    if (400 <=? status_code r) && (status_code r <? 500) then
      pretty (status_code r) +:+ " Client Error: " +:+ reason r
        +:+ " for url: " +:+ url r
    else if (500 <=? status_code r) && (status_code r <? 600) then
      pretty (status_code r) +:+ " Server Error: " +:+ reason r
        +:+ " for url: " +:+ url r
    else "" in
  if negb (String.eqb http_error_msg "") then raise HTTPError http_error_msg
  else ret tt.

(** [Response.json]: the decoded body, or the decoder's error. *)
Definition Response_json (r : Response) : Py Server pyval :=
  match content r with
  | Undecodable diagnostic => raise JSONDecodeError diagnostic
  | Document doc => ret (loads doc)
  end.

End Api.

End requests.

(** [json.dumps] as a statement.  The text of the [TypeError], which
    names the offending object, is not modelled. *)
Definition json_dumps {Server : Type} (data : pyval) : Py Server json :=
  match dumps data with
  | Some text => ret text
  | None =>
      match dumps_raises data with
      | ValueError => raise ValueError "Circular reference detected"
      | _ => raise TypeError "Object is not JSON serializable"
      end
  end.

(** ** The client *)

Definition DEFAULT_TIMEOUT_SECONDS : pyval := PInt 5.

Module Client.

Definition __init__ (token : string) : ClientObj :=
  {| base_url := "https://www.jsonstore.io/" +:+ token;
     headers := {[ "Accept" := "application/json";
                   "Content-type" := "application/json" ]} |}.

Section Methods.

Context {Server : Type}.
Variable transport : Request -> Server -> outcome Response * Server.

Definition __create_url (key : string) : Py Server string :=
  do base <- getattr base_url;
  ret (base +:+ "/" +:+ key).

Definition __check_response (response : pyobj) : Py Server pyval :=
  match response with
  | OValue v =>
      raise TypeError ("Unexpected type <class '" +:+ type_name v +:+ "'>")
  | OResponse response =>
      run requests.raise_for_status response;
      do resp <- requests.Response_json response;
      do has_ok <- py_contains "ok" resp;
      do failed <-
        (if negb has_ok then ret true
         else do ok <- py_getitem resp "ok"; ret (negb (truthy ok)));
      if failed : bool then raise JsonstoreError "Call to jsonstore failed"
      else ret resp
  end.

(** The classes in the [except] clause of all four methods. *)
Definition normalized : list exn_class :=
  [RequestException; ValueError; KeyError].

Definition get (key : string) (timeout : option pyval) : Py Server pyval :=
  let timeout := default DEFAULT_TIMEOUT_SECONDS timeout in
  do url <- __create_url key;
  try_except
    (do headers <- getattr headers;
     do resp <- requests.get transport url (Some headers) None;
     do json_resp <- __check_response (OResponse resp);
     py_getitem json_resp "result")
    normalized
    (fun e => raise JsonstoreError (exn_str e)).

Definition post (key : string) (data : pyval) (timeout : option pyval)
  : Py Server unit :=
  let timeout := default DEFAULT_TIMEOUT_SECONDS timeout in
  do url <- __create_url key;
  do json_data <- json_dumps data;
  try_except
    (do headers <- getattr headers;
     do resp <- requests.post transport url (Some json_data) (Some headers)
                  (Some timeout);
     run __check_response (OResponse resp);
     ret tt)
    normalized
    (fun e => raise JsonstoreError (exn_str e)).

Definition put (key : string) (data : pyval) (timeout : option pyval)
  : Py Server unit :=
  let timeout := default DEFAULT_TIMEOUT_SECONDS timeout in
  do url <- __create_url key;
  do json_data <- json_dumps data;
  try_except
    (do headers <- getattr headers;
     do resp <- requests.put transport url (Some json_data) (Some headers)
                  (Some timeout);
     run __check_response (OResponse resp);
     ret tt)
    normalized
    (fun e => raise JsonstoreError (exn_str e)).

Definition delete (key : string) (timeout : option pyval) : Py Server unit :=
  let timeout := default DEFAULT_TIMEOUT_SECONDS timeout in
  do url <- __create_url key;
  try_except
    (do headers <- getattr headers;
     do resp <- requests.delete transport url (Some headers) (Some timeout);
     run __check_response (OResponse resp);
     ret tt)
    normalized
    (fun e => raise JsonstoreError (exn_str e)).

End Methods.

End Client.

(** ** Worlds and services to run the client in *)

(** The world right after [Client(token)]: nothing sent yet. *)
Definition fresh {Server : Type} (token : string) (srv : Server)
  : World Server :=
  {| self := Client.__init__ token; server := srv; sent := [] |}.

(** A response with the given status and body. *)
Definition response_of (st : Z) (body : payload) : Response :=
  {| status_code := st; reason := ""; url := ""; content := body |}.

(** A service that gives the same answer to every request. *)
Definition canned (r : Response) : Request -> unit -> outcome Response * unit :=
  fun _ srv => (Returns r, srv).

(** A service that cannot be reached. *)
Definition unreachable (e : exn) : Request -> unit -> outcome Response * unit :=
  fun _ srv => (Raises e, srv).

Definition empty_store : gmap string json := ∅.

(** A service that keeps, per URL, the document last written there and
    hands it back unchanged. *)
Definition memory_service (req : Request) (db : gmap string json)
  : outcome Response * gmap string json :=
  let reply (body : json) :=
    Returns {| status_code := 200; reason := "OK"; url := req_url req;
               content := Document body |} in
  match req_method req with
  | GET =>
      match db !! req_url req with
      | Some doc =>
          (reply (JObject [("ok", JBool true); ("result", doc)]), db)
      | None => (reply (JObject [("ok", JBool false)]), db)
      end
  | POST | PUT =>
      match req_data req with
      | Some doc => (reply (JObject [("ok", JBool true)]), <[req_url req := doc]> db)
      | None => (reply (JObject [("ok", JBool false)]), db)
      end
  | DELETE => (reply (JObject [("ok", JBool true)]), base.delete (req_url req) db)
  end.

(** Sample documents and values for the concrete runs. *)
Definition success_body : json :=
  JObject [("ok", JBool true); ("result", JNumber 7)].

Definition sample_value : pyval :=
  PDict [(PStr "name", PStr "a"); (PStr "tags", PList [PInt 1; PNone])].

(** ** Callers *)

(** One method call on the client. *)
Inductive call : Type :=
  | Get (key : string) (timeout : option pyval)
  | Post (key : string) (data : pyval) (timeout : option pyval)
  | Put (key : string) (data : pyval) (timeout : option pyval)
  | Delete (key : string) (timeout : option pyval).

Definition call_key (c : call) : string :=
  match c with
  | Get key _ | Post key _ _ | Put key _ _ | Delete key _ => key
  end.

(** The payload of a call, serialized; [None] when the payload cannot be
    serialized.  Calls without a payload count as serializable. *)
Definition call_body (c : call) : option (option json) :=
  match c with
  | Get _ _ | Delete _ _ => Some None
  | Post _ data _ | Put _ data _ => Some <$> dumps data
  end.

Section Callers.

Context {Server : Type}.
Variable transport : Request -> Server -> outcome Response * Server.

(** A method without [return] gives [None]. *)
Definition invoke (c : call) : Py Server pyval :=
  match c with
  | Get key timeout => Client.get transport key timeout
  | Post key data timeout =>
      run Client.post transport key data timeout; ret PNone
  | Put key data timeout =>
      run Client.put transport key data timeout; ret PNone
  | Delete key timeout =>
      run Client.delete transport key timeout; ret PNone
  end.

(** A caller that makes the calls one after the other, whatever each one
    returns or raises. *)
Definition session (calls : list call) (w : World Server) : World Server :=
  fold_left (fun w c => snd (invoke c w)) calls w.

(** The requests a call adds to the trace. *)
Definition issued (c : call) (w : World Server) : list Request :=
  drop (length (sent w)) (sent (snd (invoke c w))).

End Callers.

(** ** Vocabulary of the statements *)

(** The status codes [raise_for_status] reports. *)
Definition http_error (r : Response) : Prop := 400 <= status_code r < 600.

#[global] Instance http_error_dec r : Decision (http_error r).
Proof. unfold http_error. apply _. Defined.

(** The body of [r] is a JSON object and deserializes to the dictionary
    [d]. *)
Definition envelope_fields (r : Response) (d : list (pyval * pyval)) : Prop :=
  exists members,
    content r = Document (JObject members) /\ loads (JObject members) = PDict d.

(** The values without floats that [json.loads] can produce: [None],
    booleans, integers, strings, lists of such values, and dictionaries
    from distinct strings to such values. *)
Inductive json_native : pyval -> Prop :=
  | native_none : json_native PNone
  | native_bool b : json_native (PBool b)
  | native_int n : json_native (PInt n)
  | native_str s : json_native (PStr s)
  | native_list l : Forall json_native l -> json_native (PList l)
  | native_dict d :
      Forall (fun kv => (exists name, kv.1 = PStr name) /\ json_native kv.2) d ->
      NoDup d.*1 ->
      json_native (PDict d).

(** The values that [json.loads] can produce: the same, and floats. *)
Inductive json_value : pyval -> Prop :=
  | value_none : json_value PNone
  | value_bool b : json_value (PBool b)
  | value_int n : json_value (PInt n)
  | value_float r : json_value (PFloat r)
  | value_str s : json_value (PStr s)
  | value_list l : Forall json_value l -> json_value (PList l)
  | value_dict d :
      Forall (fun kv => (exists name, kv.1 = PStr name) /\ json_value kv.2) d ->
      NoDup d.*1 ->
      json_value (PDict d).

(** The reasons for which [get] ends in a [JsonstoreError], read off the
    answer of the service. *)
Inductive get_failure : outcome Response -> Prop :=
  | network_failure e :
      isinstance e Client.normalized = true -> get_failure (Raises e)
  | error_status r :
      http_error r -> get_failure (Returns r)
  | body_not_json r diagnostic :
      content r = Undecodable diagnostic -> get_failure (Returns r)
  | ok_absent r d :
      envelope_fields r d -> dict_get "ok" d = None -> get_failure (Returns r)
  | ok_falsy r d ok :
      envelope_fields r d -> dict_get "ok" d = Some ok -> truthy ok = false ->
      get_failure (Returns r)
  | result_missing r d :
      envelope_fields r d -> dict_get "result" d = None ->
      get_failure (Returns r).

(** The answers on which [get] hands back the value [v]. *)
Definition get_success (answer : outcome Response) (v : pyval) : Prop :=
  exists r d ok,
    answer = Returns r /\ ~ http_error r /\ envelope_fields r d /\
    dict_get "ok" d = Some ok /\ truthy ok = true /\
    dict_get "result" d = Some v.

(** The answers the statement about [get] speaks of: a failed call, an
    error status, a body that is not JSON, or a body that is a JSON
    object. *)
Definition get_scope (answer : outcome Response) : Prop :=
  match answer with
  | Raises e => isinstance e Client.normalized = true
  | Returns r =>
      http_error r \/ (exists diagnostic, content r = Undecodable diagnostic) \/
      (exists d, envelope_fields r d)
  end.

Section Vocabulary.

Context {Server : Type}.
Variable transport : Request -> Server -> outcome Response * Server.
Implicit Types w : World Server.

(** A computation that leaves the world as it found it. *)
Definition stateless {A} (m : Py Server A) : Prop := forall w, snd (m w) = w.

(** The request a method puts together in world [w]. *)
Definition wire (m : http_method) w (key : string) (data : option json)
    (timeout : option pyval) : Request :=
  {| req_method := m; req_url := base_url (self w) +:+ "/" +:+ key;
     req_data := data; req_headers := Some (headers (self w));
     req_timeout := timeout |}.

(** The world once [req] has been sent and answered. *)
Definition after (req : Request) w : World Server :=
  {| self := self w; server := snd (transport req (server w));
     sent := sent w ++ [req] |}.

(** The request of a call whose payload, if it has one, serialized to
    [body]. *)
Definition call_request (c : call) w (body : option json) : Request :=
  match c with
  | Get key _ => wire GET w key None None
  | Post key _ t =>
      wire POST w key body (Some (default DEFAULT_TIMEOUT_SECONDS t))
  | Put key _ t =>
      wire PUT w key body (Some (default DEFAULT_TIMEOUT_SECONDS t))
  | Delete key t =>
      wire DELETE w key None (Some (default DEFAULT_TIMEOUT_SECONDS t))
  end.

(** The effect of [except (RequestException, ValueError, KeyError) as e:
    raise JsonstoreError(str(e))] on an outcome. *)
Definition normalize {A} (o : outcome A) : outcome A :=
  match o with
  | Raises e =>
      if isinstance e Client.normalized
      then Raises (Exn JsonstoreError (exn_str e)) else Raises e
  | Returns a => Returns a
  end.

(** Each method is its [try] block run on one request. *)
Definition guarded {A} (m : http_method) (key : string) (data : option json)
    (timeout : option pyval) (k : Response -> Py Server A) : Py Server A :=
  fun w =>
    try_except
      (do resp <- requests.request transport m
                    (base_url (self w) +:+ "/" +:+ key) data
                    (Some (headers (self w))) timeout;
       k resp)
      Client.normalized (fun e => raise JsonstoreError (exn_str e)) w.

End Vocabulary.

(** * Properties *)

(** ** Strings *)

Lemma string_app_assoc (a b c : string) : (a +:+ b) +:+ c = a +:+ (b +:+ c).
Proof.
  induction a as [|x a IH]; [reflexivity |].
  change (String x ((a +:+ b) +:+ c) = String x (a +:+ (b +:+ c))).
  by rewrite IH.
Qed.

Lemma string_app_nonempty (a b : string) :
  b <> "" -> String.eqb (a +:+ b) "" = false.
Proof. intros Hb. destruct a; simpl; [by destruct b | reflexivity]. Qed.

(** ** Round trip through JSON *)

Lemma pyval_nested_ind (P : pyval -> Prop) :
  P PNone -> (forall b, P (PBool b)) -> (forall n, P (PInt n)) ->
  (forall s, P (PStr s)) ->
  (forall l, Forall P l -> P (PList l)) ->
  (forall l, Forall P l -> P (PTuple l)) ->
  (forall d, Forall (fun kv => P kv.1 /\ P kv.2) d -> P (PDict d)) ->
  (forall s, P (PBytes s)) ->
  (forall r, P (PFloat r)) ->
  P PBack ->
  forall v, P v.
Proof.
  intros HNone HBool HInt HStr HList HTuple HDict HBytes HFloat HBack.
  fix IH 1. intros [ | b | n | s | l | l | d | s | r | ].
  - exact HNone.
  - apply HBool.
  - apply HInt.
  - apply HStr.
  - apply HList. induction l as [|x l IHl]; constructor; [apply IH | exact IHl].
  - apply HTuple. induction l as [|x l IHl]; constructor; [apply IH | exact IHl].
  - apply HDict. induction d as [|[k x] d IHd]; constructor; [| exact IHd].
    split; apply IH.
  - apply HBytes.
  - apply HFloat.
  - exact HBack.
Qed.

Lemma dict_set_fresh k v d :
  dict_get k d = None -> dict_set k v d = d ++ [(PStr k, v)].
Proof.
  induction d as [|[k' v'] d IH]; simpl; [reflexivity |].
  destruct (str_eq k k'); [discriminate |]. intros H. by rewrite IH.
Qed.

Lemma dict_get_snoc k k' v d :
  k <> k' -> dict_get k d = None -> dict_get k (d ++ [(PStr k', v)]) = None.
Proof.
  intros Hne. induction d as [|[k0 v0] d IH]; simpl.
  - intros _. by rewrite (proj2 (String.eqb_neq k k') Hne).
  - destruct (str_eq k k0); [discriminate | exact IH].
Qed.

(** Filling a dictionary with members of distinct names, none of them in
    the dictionary yet, appends them in order. *)
Lemma fill_distinct (f : json -> pyval) members : forall d,
  NoDup members.*1 ->
  (forall name, name ∈ members.*1 -> dict_get name d = None) ->
  fold_left (fun d '(name, x) => dict_set name (f x) d) members d =
  d ++ map (fun '(name, x) => (PStr name, f x)) members.
Proof.
  induction members as [|[name x] members IH]; intros d Hnd Hfresh; simpl.
  - by rewrite app_nil_r.
  - apply NoDup_cons in Hnd as [Hnotin Hnd].
    rewrite dict_set_fresh by (apply Hfresh; left).
    rewrite IH; [by rewrite <- app_assoc | exact Hnd |].
    intros name' Hin. apply dict_get_snoc.
    + intros ->. contradiction.
    + apply Hfresh. by right.
Qed.

(** On the values [json.loads] can produce, [json.dumps] succeeds and
    [json.loads] undoes it. *)
Lemma native_round_trip v :
  json_native v -> exists j, dumps v = Some j /\ loads j = v.
Proof.
  induction v as [ | b | n | s | l IHl | l IHl | d IHd | s | r | ]
    using pyval_nested_ind; intros Hn; inversion Hn as [ | | | | ? Hl | ? Hd Hnd]; subst.
  - by exists JNull.
  - by exists (JBool b).
  - by exists (JNumber n).
  - by exists (JString s).
  - assert (exists js, mapM dumps l = Some js /\ map loads js = l) as (js & E & R).
    { clear Hn. induction l as [|x l IH]; [by exists [] |].
      apply Forall_cons in IHl as [Hx IHl]. apply Forall_cons in Hl as [Nx Hl].
      destruct (Hx Nx) as (j & Ej & Rj). destruct (IH IHl Hl) as (js & E & R).
      exists (j :: js). cbn. rewrite Ej, E. cbn. by rewrite Rj, R. }
    exists (JArray js). cbn [dumps loads]. rewrite E. cbn. by rewrite R.
  - set (enc := fun '(k, x) =>
                  match dumps_key k, dumps x with
                  | Some name, Some j => Some (name, j)
                  | _, _ => None
                  end).
    assert (exists ms, mapM enc d = Some ms /\
              map (fun '(name, x) => (PStr name, loads x)) ms = d)
      as (ms & E & R).
    { clear Hn Hnd. induction d as [|[k x] d IH]; [by exists [] |].
      apply Forall_cons in IHd as [[_ Hx] IHd].
      apply Forall_cons in Hd as [[[name Hk] Nx] Hd]. simpl in Hk, Nx, Hx. subst k.
      destruct (Hx Nx) as (j & Ej & Rj). destruct (IH IHd Hd) as (ms & E & R).
      exists ((name, j) :: ms). cbn. rewrite Ej. cbn. rewrite E. cbn.
      by rewrite Rj, R. }
    exists (JObject ms). cbn [dumps loads]. fold enc. rewrite E.
    split; [reflexivity |]. f_equal.
    rewrite fill_distinct; [exact R | | intros; reflexivity].
    rewrite <- R in Hnd. clear -Hnd.
    apply (NoDup_fmap_1 PStr). revert Hnd. rewrite <- !list_fmap_compose.
    intros H. erewrite list_fmap_ext; [exact H |]. by intros i [name x] _.
Qed.

(** ** The exception of a failed [json.dumps] *)

Lemma dumps_raises_class v :
  dumps_raises v = TypeError \/ dumps_raises v = ValueError.
Proof.
  induction v as [ | b | n | s | l IHl | l IHl | d IHd | s | r | ]
    using pyval_nested_ind; cbn [dumps_raises]; try (by left); try (by right).
  - induction IHl as [|x l Hx _ IH]; [by left |].
    destruct (dumps x); [exact IH | exact Hx].
  - induction IHl as [|x l Hx _ IH]; [by left |].
    destruct (dumps x); [exact IH | exact Hx].
  - induction IHd as [|[k x] d [_ Hx] _ IH]; [by left |].
    destruct (dumps_key k); [| by left].
    destruct (dumps x); [exact IH | exact Hx].
Qed.

(** A value that does not contain itself fails with a [TypeError]. *)
Lemma dumps_raises_acyclic v :
  has_back v = false -> dumps_raises v = TypeError.
Proof.
  induction v as [ | b | n | s | l IHl | l IHl | d IHd | s | r | ]
    using pyval_nested_ind; cbn [dumps_raises has_back]; try done.
  - induction IHl as [|x l Hx _ IH]; [done |]. cbn [existsb].
    intros H. apply orb_false_iff in H as [H1 H2].
    destruct (dumps x); [by apply IH | by apply Hx].
  - induction IHl as [|x l Hx _ IH]; [done |]. cbn [existsb].
    intros H. apply orb_false_iff in H as [H1 H2].
    destruct (dumps x); [by apply IH | by apply Hx].
  - induction IHd as [|[k x] d [_ Hx] _ IH]; [done |]. cbn [existsb].
    intros H. apply orb_false_iff in H as [H1 H2].
    apply orb_false_iff in H1 as [_ H1].
    destruct (dumps_key k); [| done].
    destruct (dumps x); [by apply IH | by apply Hx].
Qed.

(** ** Exception classes *)

Lemma normalized_catches (c : exn_class) (msg : string) :
  isinstance (Exn c msg) Client.normalized =
  bool_decide (c ∈ [RequestException; HTTPError; ConnectionError; Timeout;
                    JSONDecodeError; ValueError; KeyError]).
Proof. by destruct c. Qed.

(** ** Computations that leave the world alone *)

Section Facts.

Context {Server : Type}.
Variable transport : Request -> Server -> outcome Response * Server.
Implicit Types w : World Server.

Local Abbreviation stateless := (@stateless Server _).
Local Abbreviation after := (after transport).
Local Abbreviation guarded := (guarded transport).


Lemma stateless_ret {A} (a : A) : stateless (ret a).
Proof. by intros w. Qed.

Lemma stateless_raise {A} c msg : stateless (@raise Server A c msg).
Proof. by intros w. Qed.

Lemma stateless_getattr {A} (f : ClientObj -> A) : stateless (getattr f).
Proof. by intros w. Qed.

Lemma stateless_bind {A B} (m : Py Server A) (k : A -> Py Server B) :
  stateless m -> (forall a, stateless (k a)) -> stateless (bind m k).
Proof.
  intros Hm Hk w. unfold bind. specialize (Hm w).
  destruct (m w) as [[a|e] w']; simpl in *; subst; [apply Hk | reflexivity].
Qed.

Lemma stateless_if {A} (b : bool) (m1 m2 : Py Server A) :
  stateless m1 -> stateless m2 -> stateless (if b then m1 else m2).
Proof. by destruct b. Qed.

Lemma stateless_py_contains item v : stateless (py_contains item v).
Proof. destruct v; intros w; reflexivity. Qed.

Lemma stateless_py_getitem v key : stateless (py_getitem v key).
Proof.
  destruct v; intros w; try reflexivity.
  simpl. by destruct (dict_get key entries).
Qed.

Lemma stateless_raise_for_status r : stateless (requests.raise_for_status r).
Proof.
  unfold requests.raise_for_status.
  apply stateless_if; [apply stateless_raise | apply stateless_ret].
Qed.

Lemma stateless_Response_json r : stateless (requests.Response_json r).
Proof. unfold requests.Response_json. intros w. by destruct (content r). Qed.

Lemma stateless_check_response o : stateless (Client.__check_response o).
Proof.
  destruct o as [r|v]; simpl; [| apply stateless_raise].
  apply stateless_bind; [apply stateless_raise_for_status |]. intros _.
  apply stateless_bind; [apply stateless_Response_json |]. intros resp.
  apply stateless_bind; [apply stateless_py_contains |]. intros has_ok.
  apply stateless_bind.
  - apply stateless_if; [apply stateless_ret |].
    apply stateless_bind; [apply stateless_py_getitem |].
    intros ok. apply stateless_ret.
  - intros failed. apply stateless_if; [apply stateless_raise | apply stateless_ret].
Qed.

(** A stateless continuation, and a handler that only raises, do not
    change what the body did to the world. *)
Lemma snd_bind_stateless {A B} (m : Py Server A) (k : A -> Py Server B) w :
  (forall a, stateless (k a)) -> snd (bind m k w) = snd (m w).
Proof.
  intros Hk. unfold bind.
  destruct (m w) as [[a|e] w']; simpl; [apply Hk | reflexivity].
Qed.

Lemma snd_try_except {A} (body : Py Server A) classes handler w :
  (forall e, stateless (handler e)) ->
  snd (try_except body classes handler w) = snd (body w).
Proof.
  intros Hh. unfold try_except.
  destruct (body w) as [[a|e] w']; simpl; [reflexivity |].
  destruct (isinstance e classes); [apply Hh | reflexivity].
Qed.

(** ** What each method does to the world *)



Lemma request_run m u d h t w :
  requests.request transport m u d h t w =
  let req := {| req_method := m; req_url := u; req_data := d;
                req_headers := h; req_timeout := t |} in
  (fst (transport req (server w)), after req w).
Proof.
  unfold requests.request, after. simpl.
  by destruct (transport _ (server w)).
Qed.

Lemma stateless_json_result (resp : Response) :
  stateless (do json_resp <- Client.__check_response (OResponse resp);
             py_getitem json_resp "result").
Proof.
  apply stateless_bind; [apply stateless_check_response |].
  intros j. apply stateless_py_getitem.
Qed.

Lemma stateless_checked (resp : Response) :
  stateless (run Client.__check_response (OResponse resp); ret tt).
Proof.
  apply stateless_bind; [apply stateless_check_response |].
  intros _. apply (stateless_ret tt).
Qed.

Lemma get_world key t w :
  snd (Client.get transport key t w) = after (wire GET w key None None) w.
Proof.
  unfold Client.get, Client.__create_url. cbn [bind getattr ret].
  rewrite snd_try_except; [| intros; apply stateless_raise].
  cbn [bind getattr]. rewrite snd_bind_stateless.
  - unfold requests.get. by rewrite request_run.
  - apply stateless_json_result.
Qed.

Lemma delete_world key t w :
  snd (Client.delete transport key t w) =
  after (wire DELETE w key None (Some (default DEFAULT_TIMEOUT_SECONDS t))) w.
Proof.
  unfold Client.delete, Client.__create_url. cbn [bind getattr ret].
  rewrite snd_try_except; [| intros; apply stateless_raise].
  cbn [bind getattr]. rewrite snd_bind_stateless.
  - unfold requests.delete. by rewrite request_run.
  - apply stateless_checked.
Qed.

Lemma post_world key data t w :
  snd (Client.post transport key data t w) =
  match dumps data with
  | Some text =>
      after (wire POST w key (Some text)
               (Some (default DEFAULT_TIMEOUT_SECONDS t))) w
  | None => w
  end.
Proof.
  unfold Client.post, Client.__create_url, json_dumps.
  cbn [bind getattr ret].
  destruct (dumps data) as [text|]; [| by destruct (dumps_raises data)].
  cbn [bind ret].
  rewrite snd_try_except; [| intros; apply stateless_raise].
  cbn [bind getattr]. rewrite snd_bind_stateless.
  - unfold requests.post. by rewrite request_run.
  - apply stateless_checked.
Qed.

Lemma put_world key data t w :
  snd (Client.put transport key data t w) =
  match dumps data with
  | Some text =>
      after (wire PUT w key (Some text)
               (Some (default DEFAULT_TIMEOUT_SECONDS t))) w
  | None => w
  end.
Proof.
  unfold Client.put, Client.__create_url, json_dumps.
  cbn [bind getattr ret].
  destruct (dumps data) as [text|]; [| by destruct (dumps_raises data)].
  cbn [bind ret].
  rewrite snd_try_except; [| intros; apply stateless_raise].
  cbn [bind getattr]. rewrite snd_bind_stateless.
  - unfold requests.put. by rewrite request_run.
  - apply stateless_checked.
Qed.

(** ** The four methods at once *)


Lemma invoke_world c w :
  snd (invoke transport c w) =
  match call_body c with
  | Some body => after (call_request c w body) w
  | None => w
  end.
Proof.
  destruct c as [key t|key data t|key data t|key t]; simpl.
  - apply get_world.
  - rewrite snd_bind_stateless by (intros; apply stateless_ret).
    rewrite post_world. by destruct (dumps data).
  - rewrite snd_bind_stateless by (intros; apply stateless_ret).
    rewrite put_world. by destruct (dumps data).
  - rewrite snd_bind_stateless by (intros; apply stateless_ret).
    apply delete_world.
Qed.

Lemma invoke_sent c w :
  sent (snd (invoke transport c w)) =
  sent w ++ match call_body c with
            | Some body => [call_request c w body]
            | None => []
            end.
Proof.
  rewrite invoke_world. destruct (call_body c); simpl; [reflexivity |].
  by rewrite app_nil_r.
Qed.

Lemma invoke_self c w : self (snd (invoke transport c w)) = self w.
Proof. rewrite invoke_world. by destruct (call_body c). Qed.

(** A call that put exactly [req] on the wire had a serializable payload,
    and [req] is the request built from it. *)
Lemma invoke_sent_inv c w req :
  sent (snd (invoke transport c w)) = sent w ++ [req] ->
  exists body, call_body c = Some body /\ req = call_request c w body.
Proof.
  rewrite invoke_sent. intros H. apply app_inv_head in H.
  destruct (call_body c) as [body|]; [| discriminate].
  exists body. split; [reflexivity | congruence].
Qed.

Lemma invoke_issued c w :
  issued transport c w =
  match call_body c with
  | Some body => [call_request c w body]
  | None => []
  end.
Proof. unfold issued. by rewrite invoke_sent, drop_app_length. Qed.

Lemma issued_inv c w req :
  issued transport c w = [req] ->
  exists body, call_body c = Some body /\ req = call_request c w body.
Proof.
  rewrite invoke_issued. destruct (call_body c) as [body|]; [| discriminate].
  intros [= <-]. by exists body.
Qed.

(** ** What each method makes of the answer *)


Lemma fst_try_request {A} m u d h t (k : Response -> Py Server A) w :
  let req := {| req_method := m; req_url := u; req_data := d;
                req_headers := h; req_timeout := t |} in
  fst (try_except (do resp <- requests.request transport m u d h t; k resp)
         Client.normalized (fun e => raise JsonstoreError (exn_str e)) w) =
  normalize match fst (transport req (server w)) with
            | Raises e => Raises e
            | Returns r => fst (k r (after req w))
            end.
Proof.
  intros req. unfold try_except, bind. rewrite request_run. fold req.
  cbn [fst snd]. unfold normalize.
  destruct (fst (transport req (server w))) as [r|e]; cbn [fst snd].
  - destruct (k r (after req w)) as [[a|e] w']; cbn [fst snd]; [reflexivity |].
    by destruct (isinstance e Client.normalized).
  - by destruct (isinstance e Client.normalized).
Qed.


Lemma get_guarded key t :
  Client.get transport key t =
  guarded GET key None None
    (fun resp => do json_resp <- Client.__check_response (OResponse resp);
                 py_getitem json_resp "result").
Proof. reflexivity. Qed.

Lemma delete_guarded key t :
  Client.delete transport key t =
  guarded DELETE key None (Some (default DEFAULT_TIMEOUT_SECONDS t))
    (fun resp => run Client.__check_response (OResponse resp); ret tt).
Proof. reflexivity. Qed.

Lemma post_guarded key data t text :
  dumps data = Some text ->
  Client.post transport key data t =
  guarded POST key (Some text) (Some (default DEFAULT_TIMEOUT_SECONDS t))
    (fun resp => run Client.__check_response (OResponse resp); ret tt).
Proof.
  intros Hd. unfold Client.post, json_dumps. rewrite Hd. reflexivity.
Qed.

Lemma put_guarded key data t text :
  dumps data = Some text ->
  Client.put transport key data t =
  guarded PUT key (Some text) (Some (default DEFAULT_TIMEOUT_SECONDS t))
    (fun resp => run Client.__check_response (OResponse resp); ret tt).
Proof.
  intros Hd. unfold Client.put, json_dumps. rewrite Hd. reflexivity.
Qed.

Lemma fst_guarded {A} m key d t (k : Response -> Py Server A) w :
  fst (guarded m key d t k w) =
  normalize match fst (transport (wire m w key d t) (server w)) with
            | Raises e => Raises e
            | Returns r => fst (k r (after (wire m w key d t) w))
            end.
Proof. unfold guarded. by rewrite fst_try_request. Qed.

Lemma fst_bind {A B} (m : Py Server A) (k : A -> Py Server B) w :
  fst (bind m k w) =
  match fst (m w) with
  | Returns a => fst (k a (snd (m w)))
  | Raises e => Raises e
  end.
Proof. unfold bind. by destruct (m w) as [[a|e] w']. Qed.

Lemma invoke_outcome c w body :
  call_body c = Some body ->
  let req := call_request c w body in
  fst (invoke transport c w) =
  normalize match fst (transport req (server w)) with
            | Raises e => Raises e
            | Returns r =>
                match fst (Client.__check_response (OResponse r) (after req w)) with
                | Raises e => Raises e
                | Returns json_resp =>
                    match c with
                    | Get _ _ => fst (py_getitem json_resp "result" (after req w))
                    | _ => Returns PNone
                    end
                end
            end.
Proof.
  assert (Hk : forall r w',
    fst ((run Client.__check_response (OResponse r); @ret Server _ tt) w') =
    match fst (Client.__check_response (OResponse r) w') with
    | Raises e => Raises e
    | Returns _ => Returns tt
    end).
  { intros r w'. rewrite fst_bind. by destruct (fst _). }
  assert (Hn : forall o : outcome unit,
    match normalize o with Returns _ => Returns PNone | Raises e => Raises e end =
    normalize match o with Returns _ => Returns PNone | Raises e => Raises e end).
  { intros [a|e]; cbn [normalize]; [reflexivity |].
    by destruct (isinstance e Client.normalized). }
  destruct c as [key t|key data t|key data t|key t];
    cbn [invoke call_request]; unfold call_body; intros Hbody.
  - rewrite get_guarded, fst_guarded. f_equal.
    destruct (fst (transport _ (server w))) as [r|e]; [| reflexivity].
    rewrite fst_bind, stateless_check_response. reflexivity.
  - destruct (dumps data) as [text|] eqn:Hd; [| discriminate].
    simpl in Hbody. injection Hbody as <-.
    rewrite fst_bind, (post_guarded _ _ _ text Hd), fst_guarded.
    change (fst (ret PNone _)) with (@Returns pyval PNone).
    rewrite Hn. f_equal.
    destruct (fst (transport _ (server w))) as [r|e]; [| reflexivity].
    rewrite Hk. by destruct (fst (Client.__check_response _ _)).
  - destruct (dumps data) as [text|] eqn:Hd; [| discriminate].
    simpl in Hbody. injection Hbody as <-.
    rewrite fst_bind, (put_guarded _ _ _ text Hd), fst_guarded.
    change (fst (ret PNone _)) with (@Returns pyval PNone).
    rewrite Hn. f_equal.
    destruct (fst (transport _ (server w))) as [r|e]; [| reflexivity].
    rewrite Hk. by destruct (fst (Client.__check_response _ _)).
  - injection Hbody as <-.
    rewrite fst_bind, delete_guarded, fst_guarded.
    change (fst (ret PNone _)) with (@Returns pyval PNone).
    rewrite Hn. f_equal.
    destruct (fst (transport _ (server w))) as [r|e]; [| reflexivity].
    rewrite Hk. by destruct (fst (Client.__check_response _ _)).
Qed.

(** ** The response check *)

Lemma raise_for_status_error r w :
  http_error r ->
  exists msg, requests.raise_for_status r w = (Raises (Exn HTTPError msg), w).
Proof.
  unfold http_error, requests.raise_for_status. intros [Hlo Hhi].
  destruct (Z.ltb_spec (status_code r) 500) as [H5|H5].
  - replace (400 <=? status_code r) with true by (symmetry; lia).
    cbn [andb]. rewrite string_app_nonempty by discriminate.
    eexists. reflexivity.
  - rewrite andb_false_r.
    replace (500 <=? status_code r) with true by (symmetry; lia).
    replace (status_code r <? 600) with true by (symmetry; lia).
    cbn [andb]. rewrite string_app_nonempty by discriminate.
    eexists. reflexivity.
Qed.

Lemma raise_for_status_pass r w :
  ~ http_error r -> requests.raise_for_status r w = (Returns tt, w).
Proof.
  unfold http_error, requests.raise_for_status. intros H.
  destruct (Z.leb_spec 400 (status_code r)) as [H4|H4]; cbn [andb].
  - replace (status_code r <? 500) with false by (symmetry; lia).
    replace (500 <=? status_code r) with true by (symmetry; lia).
    replace (status_code r <? 600) with false by (symmetry; lia).
    reflexivity.
  - replace (500 <=? status_code r) with false by (symmetry; lia).
    reflexivity.
Qed.

Lemma check_http_error r w :
  http_error r ->
  exists msg,
    fst (Client.__check_response (OResponse r) w) = Raises (Exn HTTPError msg).
Proof.
  intros H. destruct (raise_for_status_error r w H) as [msg E].
  exists msg. cbn [Client.__check_response]. by rewrite fst_bind, E.
Qed.

Lemma check_undecodable r diagnostic w :
  ~ http_error r -> content r = Undecodable diagnostic ->
  fst (Client.__check_response (OResponse r) w) =
  Raises (Exn JSONDecodeError diagnostic).
Proof.
  intros H Hc. cbn [Client.__check_response].
  rewrite fst_bind, raise_for_status_pass by done. cbn [fst snd].
  unfold bind at 1, requests.Response_json. by rewrite Hc.
Qed.

Lemma check_dict r doc d w :
  ~ http_error r -> content r = Document doc -> loads doc = PDict d ->
  fst (Client.__check_response (OResponse r) w) =
  match dict_get "ok" d with
  | Some ok =>
      if truthy ok then Returns (PDict d)
      else Raises (Exn JsonstoreError "Call to jsonstore failed")
  | None => Raises (Exn JsonstoreError "Call to jsonstore failed")
  end.
Proof.
  intros H Hc Hd. cbn [Client.__check_response].
  rewrite fst_bind, raise_for_status_pass by done. cbn [fst snd].
  unfold bind at 1, requests.Response_json. rewrite Hc, Hd.
  unfold bind, ret, raise. cbn [py_contains py_getitem ret].
  destruct (dict_get "ok" d) as [ok|] eqn:Hok.
  - rewrite bool_decide_eq_true_2 by eauto. cbn [negb]. unfold ret.
    by destruct (truthy ok).
  - rewrite bool_decide_eq_false_2 by (intros [? ?]; discriminate).
    reflexivity.
Qed.

End Facts.

(** ** Error normalization *)

Section Errors.

Context {Server : Type}.
Variable transport : Request -> Server -> outcome Response * Server.
Implicit Types w : World Server.

(** How a call ends once its single request [req] has been answered with
    the response [r]. *)
Lemma answered_outcome c w req r srv :
  issued transport c w = [req] ->
  transport req (server w) = (Returns r, srv) ->
  fst (invoke transport c w) =
  normalize
    match fst (Client.__check_response (OResponse r) (after transport req w)) with
    | Raises e => Raises e
    | Returns json_resp =>
        match c with
        | Get _ _ =>
            fst (py_getitem json_resp "result" (after transport req w))
        | _ => Returns PNone
        end
    end.
Proof.
  intros Hreq Htr. apply issued_inv in Hreq as (body & Hbody & ->).
  rewrite (invoke_outcome transport c w body Hbody). cbv zeta.
  by rewrite Htr.
Qed.

(** C5: whatever the operation, a response whose body is not valid JSON
    makes it raise [JsonstoreError]; the decoder's own exception does not
    reach the caller. *)
Theorem malformed_body_raises_JsonstoreError c w req r srv diagnostic :
  issued transport c w = [req] ->
  transport req (server w) = (Returns r, srv) ->
  content r = Undecodable diagnostic ->
  exists msg, fst (invoke transport c w) = Raises (Exn JsonstoreError msg).
Proof.
  intros Hreq Htr Hbody. rewrite (answered_outcome c w req r srv Hreq Htr).
  destruct (decide (http_error r)) as [Herr|Hok].
  - destruct (check_http_error r (after transport req w) Herr) as [msg ->].
    by exists msg.
  - rewrite (check_undecodable r diagnostic) by done. by exists diagnostic.
Qed.

(** C4, amended: whatever the operation, a response with a 4xx or 5xx
    status makes it raise [JsonstoreError]. *)
Theorem error_status_raises_JsonstoreError c w req r srv :
  issued transport c w = [req] ->
  transport req (server w) = (Returns r, srv) ->
  http_error r ->
  exists msg, fst (invoke transport c w) = Raises (Exn JsonstoreError msg).
Proof.
  intros Hreq Htr Herr. rewrite (answered_outcome c w req r srv Hreq Htr).
  destruct (check_http_error r (after transport req w) Herr) as [msg ->].
  by exists msg.
Qed.

(** C3, amended: whatever the operation and whatever the status code, a
    response whose body is a JSON object in which ['ok'] is absent or
    falsy makes it raise [JsonstoreError]. *)
Theorem ok_absent_or_falsy_raises_JsonstoreError c w req r srv d :
  issued transport c w = [req] ->
  transport req (server w) = (Returns r, srv) ->
  envelope_fields r d ->
  (dict_get "ok" d = None \/
   exists ok, dict_get "ok" d = Some ok /\ truthy ok = false) ->
  exists msg, fst (invoke transport c w) = Raises (Exn JsonstoreError msg).
Proof.
  intros Hreq Htr (members & Hbody & Hloads) Hok.
  rewrite (answered_outcome c w req r srv Hreq Htr).
  destruct (decide (http_error r)) as [Herr|Hstatus].
  - destruct (check_http_error r (after transport req w) Herr) as [msg ->].
    by exists msg.
  - rewrite (check_dict r _ d _ Hstatus Hbody Hloads).
    destruct Hok as [-> | (ok & -> & ->)]; by eexists.
Qed.

Lemma envelope_fields_inj r d d' :
  envelope_fields r d -> envelope_fields r d' -> d = d'.
Proof. intros (m & Hm & Hd) (m' & Hm' & Hd'). congruence. Qed.

(** C1, amended: when the network call fails, or the response has a 4xx
    or 5xx status, or its body is not valid JSON or is a JSON object,
    [get] returns the ['result'] field of the deserialized body if ['ok']
    is present and truthy and ['result'] is present, and otherwise raises
    [JsonstoreError]: it does so exactly when the call failed, the status
    is 4xx or 5xx, the body is not valid JSON, ['ok'] is absent or falsy,
    or ['result'] is missing. *)
Theorem get_returns_result_or_raises key timeout w req answer srv :
  issued transport (Get key timeout) w = [req] ->
  transport req (server w) = (answer, srv) ->
  get_scope answer ->
  ((exists msg,
      fst (Client.get transport key timeout w) = Raises (Exn JsonstoreError msg))
   <-> get_failure answer) /\
  (forall v,
      fst (Client.get transport key timeout w) = Returns v
      <-> get_success answer v).
Proof.
  intros Hreq Htr Hscope.
  change (Client.get transport key timeout) with
    (invoke transport (Get key timeout)).
  destruct answer as [r|e].
  - rewrite (answered_outcome _ w req r srv Hreq Htr).
    set (w' := after transport req w).
    destruct (decide (http_error r)) as [Herr|Hstatus].
    { destruct (check_http_error r w' Herr) as [msg ->]. cbn. split.
      - split; [intros _; by apply error_status | intros _; by eexists].
      - intros v. split; [discriminate |].
        intros (r' & d & ok & [= <-] & Hne & _). contradiction. }
    destruct Hscope as [Herr | [[diagnostic Hbody] | [d Hd]]]; [contradiction | |].
    { rewrite (check_undecodable r diagnostic) by done. cbn. split.
      - split; [intros _; by eapply body_not_json | intros _; by eexists].
      - intros v. split; [discriminate |].
        intros (r' & d & ok & [= <-] & _ & (m & Hm & _) & _). congruence. }
    pose proof Hd as (members & Hbody & Hloads).
    rewrite (check_dict r _ d w' Hstatus Hbody Hloads).
    destruct (dict_get "ok" d) as [ok|] eqn:Hok; [destruct (truthy ok) eqn:Ht |].
    + cbn [py_getitem]. destruct (dict_get "result" d) as [v|] eqn:Hres.
      * cbn. split.
        -- split; [intros [msg [=]] |].
           inversion 1 as [| | ?? Hu | ? d' Hd' Hk | ? d' ? Hd' Hk Hf | ? d' Hd' Hk];
             subst; try contradiction; try congruence;
             rewrite <- (envelope_fields_inj _ _ _ Hd Hd') in Hk; congruence.
        -- intros v'. split.
           ++ intros [= <-]. by exists r, d, ok.
           ++ intros (r' & d' & ok' & [= <-] & _ & Hd' & _ & _ & Hv).
              rewrite <- (envelope_fields_inj _ _ _ Hd Hd') in Hv. congruence.
      * cbn. split.
        -- split; [intros _; by eapply result_missing | intros _; by eexists].
        -- intros v. split; [discriminate |].
           intros (r' & d' & ok' & [= <-] & _ & Hd' & _ & _ & Hv).
           rewrite <- (envelope_fields_inj _ _ _ Hd Hd') in Hv. congruence.
    + cbn. split.
      * split; [intros _; by eapply ok_falsy | intros _; by eexists].
      * intros v. split; [discriminate |].
        intros (r' & d' & ok' & [= <-] & _ & Hd' & Hk & Hf & _).
        rewrite <- (envelope_fields_inj _ _ _ Hd Hd') in Hk. congruence.
    + cbn. split.
      * split; [intros _; by eapply ok_absent | intros _; by eexists].
      * intros v. split; [discriminate |].
        intros (r' & d' & ok' & [= <-] & _ & Hd' & Hk & _).
        rewrite <- (envelope_fields_inj _ _ _ Hd Hd') in Hk. congruence.
  - apply issued_inv in Hreq as (body & Hbody & ->).
    rewrite (invoke_outcome transport _ w body Hbody). cbv zeta.
    rewrite Htr. cbn [fst normalize]. cbn [get_scope] in Hscope.
    rewrite Hscope. split.
    + split; [intros _; by apply network_failure | intros _; by eexists].
    + intros v. split; [discriminate |].
      intros (r' & d' & ok' & [=] & _).
Qed.

End Errors.

(** ** Requests on the wire *)

Section Wire.

Context {Server : Type}.
Variable transport : Request -> Server -> outcome Response * Server.
Implicit Types w : World Server.

Lemma call_request_headers c w body :
  req_headers (call_request c w body) = Some (headers (self w)).
Proof. by destruct c. Qed.

Lemma call_request_url c w body :
  req_url (call_request c w body) = base_url (self w) +:+ "/" +:+ call_key c.
Proof. by destruct c. Qed.

(** Calls neither touch the client object nor send anything but requests
    that carry its headers. *)
Lemma session_preserves (client : ClientObj) calls : forall w,
  self w = client ->
  Forall (fun req => req_headers req = Some (headers client)) (sent w) ->
  self (session transport calls w) = client /\
  Forall (fun req => req_headers req = Some (headers client))
    (sent (session transport calls w)).
Proof.
  induction calls as [|c calls IH]; intros w Hself Hsent; [by split |].
  cbn [session fold_left]. apply IH.
  - by rewrite invoke_self.
  - rewrite invoke_sent. apply Forall_app. split; [exact Hsent |].
    destruct (call_body c) as [body|]; [| constructor].
    constructor; [| constructor].
    by rewrite call_request_headers, Hself.
Qed.

(** C6: through any sequence of calls the client object stays what the
    constructor made it (base URL and headers), and every request sent
    carries the two headers [Accept: application/json] and
    [Content-type: application/json]. *)
Theorem headers_and_client_fixed token (srv : Server) calls :
  let w := session transport calls (fresh token srv) in
  self w = Client.__init__ token /\
  base_url (self w) = "https://www.jsonstore.io/" +:+ token /\
  Forall (fun req =>
            req_headers req =
            Some {[ "Accept" := "application/json";
                    "Content-type" := "application/json" ]})
    (sent w).
Proof.
  intros w.
  destruct (session_preserves (Client.__init__ token) calls (fresh token srv))
    as [Hself Hsent]; [reflexivity | constructor |].
  fold w in Hself, Hsent. split; [exact Hself |].
  split; [by rewrite Hself | exact Hsent].
Qed.

(** C7: after any sequence of calls, a call for [key] sends one request
    (none if its payload cannot be serialized), and the URL of that
    request is the base URL, a slash and the key, that is
    ['https://www.jsonstore.io/' + token + '/' + key]. *)
Theorem request_url token (srv : Server) calls c :
  let w := session transport calls (fresh token srv) in
  length (issued transport c w) =
    match call_body c with Some _ => 1%nat | None => 0%nat end /\
  Forall (fun req =>
            req_url req = base_url (self w) +:+ "/" +:+ call_key c /\
            req_url req =
              (("https://www.jsonstore.io/" +:+ token) +:+ "/") +:+ call_key c)
    (issued transport c w).
Proof.
  intros w. rewrite invoke_issued.
  destruct (session_preserves (Client.__init__ token) calls (fresh token srv))
    as [Hself _]; [reflexivity | constructor |].
  fold w in Hself.
  destruct (call_body c) as [body|]; split; try reflexivity; [| constructor].
  constructor; [| constructor]. rewrite call_request_url.
  split; [reflexivity |]. rewrite Hself. cbn [base_url Client.__init__].
  by rewrite <- string_app_assoc.
Qed.

(** C2, amended: [get] is the one method that drops its timeout; [post],
    [put] and [delete] pass theirs on to the HTTP call. *)
Theorem timeout_forwarding key data (timeout : option pyval) (t : pyval) w :
  req_timeout <$> issued transport (Get key timeout) w = [None] /\
  req_timeout <$> issued transport (Delete key (Some t)) w = [Some t] /\
  req_timeout <$> issued transport (Post key data (Some t)) w =
    match dumps data with Some _ => [Some t] | None => [] end /\
  req_timeout <$> issued transport (Put key data (Some t)) w =
    match dumps data with Some _ => [Some t] | None => [] end.
Proof.
  rewrite !invoke_issued. cbn [call_body].
  repeat split; try reflexivity; by destruct (dumps data).
Qed.

(** C10: a call that leaves the timeout out is the call with a timeout of
    5 seconds, for each of the four methods; [post], [put] and [delete]
    then send 5 as the timeout of the request. *)
Theorem default_timeout_is_five key data w :
  DEFAULT_TIMEOUT_SECONDS = PInt 5 /\
  Client.get transport key None = Client.get transport key (Some (PInt 5)) /\
  Client.post transport key data None =
    Client.post transport key data (Some (PInt 5)) /\
  Client.put transport key data None =
    Client.put transport key data (Some (PInt 5)) /\
  Client.delete transport key None =
    Client.delete transport key (Some (PInt 5)) /\
  req_timeout <$> issued transport (Delete key None) w = [Some (PInt 5)] /\
  req_timeout <$> issued transport (Post key data None) w =
    match dumps data with Some _ => [Some (PInt 5)] | None => [] end /\
  req_timeout <$> issued transport (Put key data None) w =
    match dumps data with Some _ => [Some (PInt 5)] | None => [] end.
Proof.
  rewrite !invoke_issued. cbn [call_body].
  repeat split; try reflexivity; by destruct (dumps data).
Qed.

(** What [json.dumps] raises is what [post] and [put] raise, before
    anything else happens. *)
Lemma json_dumps_raises data w :
  dumps data = None ->
  exists msg,
    @json_dumps Server data w = (Raises (Exn (dumps_raises data) msg), w).
Proof.
  intros Hd. unfold json_dumps. rewrite Hd.
  destruct (dumps_raises_class data) as [-> | ->]; eexists; reflexivity.
Qed.

(** C9, amended: when [json.dumps] cannot serialize the payload, [post]
    and [put] raise its exception, not [JsonstoreError], and leave the
    world as it was: no request is sent.  The exception is a [TypeError]
    or a [ValueError], and a [TypeError] whenever the payload does not
    contain itself. *)
Theorem unserializable_payload_raises_before_sending key data timeout w :
  dumps data = None ->
  (dumps_raises data = TypeError \/ dumps_raises data = ValueError) /\
  (has_back data = false -> dumps_raises data = TypeError) /\
  (exists msg,
     Client.post transport key data timeout w =
     (Raises (Exn (dumps_raises data) msg), w)) /\
  (exists msg,
     Client.put transport key data timeout w =
     (Raises (Exn (dumps_raises data) msg), w)) /\
  issued transport (Post key data timeout) w = [] /\
  issued transport (Put key data timeout) w = [].
Proof.
  intros Hd. destruct (json_dumps_raises data w Hd) as [msg Hraise].
  split; [apply dumps_raises_class |].
  split; [apply dumps_raises_acyclic |].
  rewrite !invoke_issued. cbn [call_body]. rewrite Hd.
  unfold Client.post, Client.put, Client.__create_url.
  cbn [bind getattr ret]. unfold bind. rewrite Hraise.
  repeat split; by exists msg.
Qed.

End Wire.

(** ** Writing, then reading *)

Section RoundTrip.

Context {Server : Type}.
Variable transport : Request -> Server -> outcome Response * Server.
Implicit Types w : World Server.

(** C8, amended: after a successful [post] of [value] under [key], a
    [get] of [key] that the service answers with the document it was
    sent returns [json.loads(json.dumps(value))]; this is [value] itself
    when [value] is made of [None], booleans, integers, strings, lists
    and dictionaries with distinct string keys. *)
Theorem post_then_get_round_trip key value t1 t2 w w1 body req r srv :
  Client.post transport key value t1 w = (Returns tt, w1) ->
  req_data <$> issued transport (Post key value t1) w = [Some body] ->
  issued transport (Get key t2) w1 = [req] ->
  transport req (server w1) = (Returns r, srv) ->
  ~ http_error r ->
  content r = Document (JObject [("ok", JBool true); ("result", body)]) ->
  fst (Client.get transport key t2 w1) = Returns (loads body) /\
  (json_native value -> loads body = value).
Proof.
  intros _ Hsent Hreq Htr Hstatus Hbody.
  assert (Hd : dumps value = Some body).
  { rewrite invoke_issued in Hsent. cbn [call_body] in Hsent.
    destruct (dumps value) as [text|]; [| discriminate].
    by injection Hsent as ->. }
  split.
  - change (Client.get transport key t2) with (invoke transport (Get key t2)).
    rewrite (answered_outcome transport _ w1 req r srv Hreq Htr).
    by rewrite (check_dict r _ _ _ Hstatus Hbody eq_refl).
  - intros Hn. destruct (native_round_trip value Hn) as (j & Ej & Rj).
    congruence.
Qed.

End RoundTrip.

(** ** Concrete runs *)

(** A body that is JSON but not an object escapes the [except] clause:
    the membership test raises a [TypeError]. *)
Example get_on_scalar_body :
  fst (Client.get (canned (response_of 200 (Document (JNumber 5)))) "k" None
         (fresh "tok" tt)) =
  Raises (Exn TypeError "argument of type 'int' is not iterable").
Proof. reflexivity. Qed.

Example get_on_list_body :
  fst (Client.get (canned (response_of 200 (Document (JArray [JString "ok"]))))
         "k" None (fresh "tok" tt)) =
  Raises (Exn TypeError "list indices must be integers or slices, not str").
Proof. reflexivity. Qed.

Example get_on_success :
  Client.get (canned (response_of 200 (Document success_body))) "k" None
    (fresh "tok" tt) =
  (Returns (PInt 7),
   {| self := Client.__init__ "tok"; server := tt;
      sent := [ {| req_method := GET;
                   req_url := "https://www.jsonstore.io/tok/k";
                   req_data := None;
                   req_headers := Some (headers (Client.__init__ "tok"));
                   req_timeout := None |} ] |}).
Proof. reflexivity. Qed.

Example get_on_connection_error :
  fst (Client.get (unreachable (Exn ConnectionError "Connection refused"))
         "k" None (fresh "tok" tt)) =
  Raises (Exn JsonstoreError "Connection refused").
Proof. reflexivity. Qed.

Example post_on_success :
  fst (Client.post (canned (response_of 200 (Document (JObject [("ok", JBool true)]))))
         "k" (PList [PInt 1; PStr "a"]) None (fresh "tok" tt)) =
  Returns tt.
Proof. reflexivity. Qed.

Example get_after_delete :
  fst (Client.get memory_service "k" None
         (session memory_service
            [Post "k" (PInt 1) None; Delete "k" None] (fresh "tok" empty_store))) =
  Raises (Exn JsonstoreError "Call to jsonstore failed").
Proof. reflexivity. Qed.

Example get_after_post_and_put :
  fst (Client.get memory_service "k" None
         (session memory_service
            [Post "k" (PInt 1) None; Put "k" (PInt 2) None]
            (fresh "tok" empty_store))) =
  Returns (PInt 2).
Proof. reflexivity. Qed.

Example get_on_float_result :
  fst (Client.get
         (canned (response_of 200
                    (Document (JObject [("ok", JBool true);
                                        ("result", JFloat "1.5")]))))
         "k" None (fresh "tok" tt)) =
  Returns (PFloat "1.5").
Proof. reflexivity. Qed.

Example get_on_zero_float_ok :
  fst (Client.get
         (canned (response_of 200
                    (Document (JObject [("ok", JFloat "0.0");
                                        ("result", JNumber 7)]))))
         "k" None (fresh "tok" tt)) =
  Raises (Exn JsonstoreError "Call to jsonstore failed").
Proof. reflexivity. Qed.

Example put_on_self_containing_dict :
  Client.put (canned (response_of 200 (Document success_body))) "k"
    (PDict [(PStr "name", PStr "a"); (PStr "self", PBack)]) None
    (fresh "tok" tt) =
  (Raises (Exn ValueError "Circular reference detected"), fresh "tok" tt).
Proof. reflexivity. Qed.

Example post_on_bytes_before_cycle :
  fst (Client.post (canned (response_of 200 (Document success_body))) "k"
         (PList [PBytes "raw"; PBack]) None (fresh "tok" tt)) =
  Raises (Exn TypeError "Object is not JSON serializable").
Proof. reflexivity. Qed.

(** C1 as stated fails: on a 404 answer whose body is a well-formed
    success envelope the call went through, the body is valid JSON, ['ok']
    is true and ['result'] is there, and yet [get] raises
    [JsonstoreError]; on an answer whose ['ok'] is 0, neither absent nor
    [false], it raises as well. *)
Lemma get_failure_causes_counterexample :
  loads success_body = PDict [(PStr "ok", PBool true); (PStr "result", PInt 7)] /\
  canned (response_of 404 (Document success_body))
    (call_request (Get "k" None) (fresh "tok" tt) None) tt =
    (Returns (response_of 404 (Document success_body)), tt) /\
  fst (Client.get (canned (response_of 404 (Document success_body))) "k" None
         (fresh "tok" tt)) =
    Raises (Exn JsonstoreError "404 Client Error:  for url: ") /\
  fst (Client.get
         (canned (response_of 200
                    (Document (JObject [("ok", JNumber 0); ("result", JNumber 7)]))))
         "k" None (fresh "tok" tt)) =
    Raises (Exn JsonstoreError "Call to jsonstore failed").
Proof. repeat split; reflexivity. Qed.

Lemma get_returns_result_or_raises_witness :
  get_success (Returns (response_of 200 (Document success_body))) (PInt 7).
Proof.
  apply (get_returns_result_or_raises
           (canned (response_of 200 (Document success_body))) "k" None
           (fresh "tok" tt)
           (call_request (Get "k" None) (fresh "tok" tt) None)
           (Returns (response_of 200 (Document success_body))) tt).
  - reflexivity.
  - reflexivity.
  - right. right. eexists. eexists. split; reflexivity.
  - reflexivity.
Defined.

(** C2 as stated fails: [delete] does pass its timeout on. *)
Lemma delete_passes_timeout_counterexample :
  req_timeout <$>
    issued (canned (response_of 200 (Document success_body)))
      (Delete "k" (Some (PInt 9))) (fresh "tok" tt) =
  [Some (PInt 9)].
Proof. reflexivity. Qed.

(** C3 as stated fails: an ['ok'] that is the string ["yes"] is not
    [true], and [post] returns normally. *)
Lemma truthy_ok_counterexample :
  fst (invoke (canned (response_of 200 (Document (JObject [("ok", JString "yes")]))))
         (Post "k" PNone None) (fresh "tok" tt)) =
  Returns PNone.
Proof. reflexivity. Qed.

Lemma ok_absent_or_falsy_witness :
  exists msg,
    fst (invoke (canned (response_of 200 (Document (JObject [("ok", JBool false)]))))
           (Delete "k" None) (fresh "tok" tt)) =
    Raises (Exn JsonstoreError msg).
Proof.
  apply (ok_absent_or_falsy_raises_JsonstoreError
           (canned (response_of 200 (Document (JObject [("ok", JBool false)]))))
           (Delete "k" None) (fresh "tok" tt)
           (call_request (Delete "k" None) (fresh "tok" tt) None)
           (response_of 200 (Document (JObject [("ok", JBool false)]))) tt
           [(PStr "ok", PBool false)]).
  - reflexivity.
  - reflexivity.
  - eexists. split; reflexivity.
  - right. eexists. split; reflexivity.
Defined.

(** C4 as stated fails: 300 is not a 2xx status, and [get] returns the
    value all the same. *)
Lemma non_2xx_status_counterexample :
  ~ (200 <= status_code (response_of 300 (Document success_body)) < 300) /\
  fst (invoke (canned (response_of 300 (Document success_body)))
         (Get "k" None) (fresh "tok" tt)) =
  Returns (PInt 7).
Proof. split; [cbn; lia | reflexivity]. Qed.

Lemma error_status_witness :
  exists msg,
    fst (invoke (canned (response_of 500 (Document success_body)))
           (Put "k" (PInt 1) None) (fresh "tok" tt)) =
    Raises (Exn JsonstoreError msg).
Proof.
  apply (error_status_raises_JsonstoreError
           (canned (response_of 500 (Document success_body)))
           (Put "k" (PInt 1) None) (fresh "tok" tt)
           (call_request (Put "k" (PInt 1) None) (fresh "tok" tt)
              (Some (JNumber 1)))
           (response_of 500 (Document success_body)) tt).
  - reflexivity.
  - reflexivity.
  - unfold http_error. cbn. lia.
Defined.

Lemma malformed_body_witness :
  exists msg,
    fst (invoke (canned (response_of 200 (Undecodable "Expecting value")))
           (Get "k" None) (fresh "tok" tt)) =
    Raises (Exn JsonstoreError msg).
Proof.
  apply (malformed_body_raises_JsonstoreError
           (canned (response_of 200 (Undecodable "Expecting value")))
           (Get "k" None) (fresh "tok" tt)
           (call_request (Get "k" None) (fresh "tok" tt) None)
           (response_of 200 (Undecodable "Expecting value")) tt
           "Expecting value").
  - reflexivity.
  - reflexivity.
  - reflexivity.
Defined.

(** C8 as stated fails: a tuple is serializable, and comes back as a
    list. *)
Lemma tuple_round_trip_counterexample :
  dumps (PTuple [PInt 1; PInt 2]) = Some (JArray [JNumber 1; JNumber 2]) /\
  fst (Client.post memory_service "k" (PTuple [PInt 1; PInt 2]) None
         (fresh "tok" empty_store)) = Returns tt /\
  fst (Client.get memory_service "k" None
         (snd (Client.post memory_service "k" (PTuple [PInt 1; PInt 2]) None
                 (fresh "tok" empty_store)))) =
    Returns (PList [PInt 1; PInt 2]) /\
  PList [PInt 1; PInt 2] <> PTuple [PInt 1; PInt 2].
Proof. repeat split; try reflexivity. discriminate. Qed.

Lemma sample_value_native : json_native sample_value.
Proof.
  apply native_dict.
  - repeat constructor; cbn; eauto using json_native.
  - cbn. apply NoDup_cons. split; [| apply NoDup_singleton].
    rewrite list_elem_of_singleton. discriminate.
Defined.

Lemma post_then_get_round_trip_witness :
  fst (Client.get memory_service "k" None
         (snd (Client.post memory_service "k" sample_value None
                 (fresh "tok" empty_store)))) = Returns sample_value.
Proof.
  destruct (post_then_get_round_trip memory_service "k" sample_value None None
              (fresh "tok" empty_store)
              (snd (Client.post memory_service "k" sample_value None
                      (fresh "tok" empty_store)))
              (JObject [("name", JString "a");
                        ("tags", JArray [JNumber 1; JNull])])
              (call_request (Get "k" None) (fresh "tok" empty_store) None)
              {| status_code := 200; reason := "OK";
                 url := "https://www.jsonstore.io/tok/k";
                 content :=
                   Document
                     (JObject
                        [("ok", JBool true);
                         ("result",
                          JObject [("name", JString "a");
                                   ("tags", JArray [JNumber 1; JNull])])]) |}
              (<["https://www.jsonstore.io/tok/k" :=
                   JObject [("name", JString "a");
                            ("tags", JArray [JNumber 1; JNull])]]> empty_store))
    as [Hget Hsame].
  - reflexivity.
  - reflexivity.
  - reflexivity.
  - reflexivity.
  - unfold http_error. cbn. lia.
  - reflexivity.
  - rewrite Hget, Hsame; [reflexivity | exact sample_value_native].
Defined.

Lemma unserializable_payload_witness :
  exists msg,
    Client.post (canned (response_of 200 (Document success_body))) "k"
      (PBytes "raw") None (fresh "tok" tt) =
    (Raises (Exn TypeError msg), fresh "tok" tt).
Proof.
  destruct (unserializable_payload_raises_before_sending
              (canned (response_of 200 (Document success_body))) "k"
              (PBytes "raw") None (fresh "tok" tt))
    as (_ & _ & Hpost & _).
  - reflexivity.
  - exact Hpost.
Defined.

(** C9 as stated fails: a list that contains itself cannot be
    serialized, and [post] and [put] raise a [ValueError] on it. *)
Lemma self_containing_payload_counterexample :
  dumps (PList [PBack]) = None /\
  Client.post (canned (response_of 200 (Document success_body))) "k"
    (PList [PBack]) None (fresh "tok" tt) =
    (Raises (Exn ValueError "Circular reference detected"), fresh "tok" tt) /\
  Client.put (canned (response_of 200 (Document success_body))) "k"
    (PList [PBack]) None (fresh "tok" tt) =
    (Raises (Exn ValueError "Circular reference detected"), fresh "tok" tt).
Proof. repeat split; reflexivity. Qed.

(** * Further properties of the client *)

(** ** The check on bodies that are not objects *)

Section Decoded.

Context {Server : Type}.
Variable transport : Request -> Server -> outcome Response * Server.
Implicit Types w : World Server.

(** Past the status test and the decoder, the check is the membership
    test and the truth test on the decoded body. *)
Lemma check_decoded r doc w :
  ~ http_error r -> content r = Document doc ->
  Client.__check_response (OResponse r) w =
  (do has_ok <- py_contains "ok" (loads doc);
   do failed <-
     (if negb has_ok then ret true
      else do ok <- py_getitem (loads doc) "ok"; ret (negb (truthy ok)));
   if failed : bool then raise JsonstoreError "Call to jsonstore failed"
   else ret (loads doc)) w.
Proof.
  intros Hstatus Hbody. cbn [Client.__check_response].
  unfold bind at 1. rewrite raise_for_status_pass by done.
  unfold bind at 1, requests.Response_json. by rewrite Hbody.
Qed.

Lemma loads_is_ok x : str_eq "ok" (loads x) = true <-> x = JString "ok".
Proof.
  destruct x as [ | b | n | s | l | ms | r]; cbn [loads str_eq];
    (split; [try discriminate | try (intros [=]; fail)]).
  - intros H. apply String.eqb_eq in H. by subst.
  - intros [= ->]. reflexivity.
Qed.

Lemma existsb_is_ok items :
  existsb (str_eq "ok") (map loads items) = true <-> JString "ok" ∈ items.
Proof.
  induction items as [|x items IH]; cbn [map existsb].
  - split; [discriminate | intros H; by apply elem_of_nil in H].
  - rewrite orb_true_iff, IH, loads_is_ok, elem_of_cons.
    split; (intros [H|H]; [left; congruence | by right]).
Qed.


(** X2: whatever the operation, an answer without error status whose
    body is a JSON array ends in a [TypeError] when the string ["ok"] is
    one of its elements, and in the [JsonstoreError] of a failed call
    when it is not. *)
Theorem array_body_outcome c w req r srv items :
  issued transport c w = [req] ->
  transport req (server w) = (Returns r, srv) ->
  ~ http_error r ->
  content r = Document (JArray items) ->
  ((JString "ok" ∈ items) /\
   exists msg, fst (invoke transport c w) = Raises (Exn TypeError msg)) \/
  ((JString "ok" ∉ items) /\
   fst (invoke transport c w) =
   Raises (Exn JsonstoreError "Call to jsonstore failed")).
Proof.
  intros Hreq Htr Hstatus Hbody.
  rewrite (answered_outcome transport c w req r srv Hreq Htr).
  rewrite (check_decoded r _ _ Hstatus Hbody).
  cbn [loads py_contains py_getitem]. unfold bind at 1. cbn [ret].
  destruct (existsb (str_eq "ok") (map loads items)) eqn:Hin.
  - left. split; [by apply existsb_is_ok |]. eexists. reflexivity.
  - right. split; [| reflexivity].
    intros H. apply existsb_is_ok in H. congruence.
Qed.

(** X3: whatever the operation, an answer without error status whose
    body is a JSON string ends in a [TypeError] when ["ok"] occurs in the
    string, and in the [JsonstoreError] of a failed call when it does
    not. *)
Theorem string_body_outcome c w req r srv text :
  issued transport c w = [req] ->
  transport req (server w) = (Returns r, srv) ->
  ~ http_error r ->
  content r = Document (JString text) ->
  (str_contains "ok" text = true /\
   exists msg, fst (invoke transport c w) = Raises (Exn TypeError msg)) \/
  (str_contains "ok" text = false /\
   fst (invoke transport c w) =
   Raises (Exn JsonstoreError "Call to jsonstore failed")).
Proof.
  intros Hreq Htr Hstatus Hbody.
  rewrite (answered_outcome transport c w req r srv Hreq Htr).
  rewrite (check_decoded r _ _ Hstatus Hbody).
  cbn [loads py_contains py_getitem]. unfold bind at 1. cbn [ret].
  destruct (str_contains "ok" text) eqn:Hin.
  - left. split; [reflexivity |]. eexists. reflexivity.
  - right. split; reflexivity.
Qed.

End Decoded.

(** ** What the caller gets to see of a failure *)

Section Propagation.

Context {Server : Type}.
Variable transport : Request -> Server -> outcome Response * Server.
Implicit Types w : World Server.

Lemma raised_outcome c w req e srv :
  issued transport c w = [req] ->
  transport req (server w) = (Raises e, srv) ->
  fst (invoke transport c w) = normalize (Raises e).
Proof.
  intros Hreq Htr. apply issued_inv in Hreq as (body & Hbody & ->).
  rewrite (invoke_outcome transport c w body Hbody). cbv zeta.
  by rewrite Htr.
Qed.

(** X4: whatever the operation, when the HTTP call raises an exception
    of a class the [except] clause lists ([RequestException],
    [ValueError], [KeyError] or a subclass), the caller gets a
    [JsonstoreError] whose message is [str] of that exception. *)
Theorem listed_exception_keeps_its_message c w req e srv :
  issued transport c w = [req] ->
  transport req (server w) = (Raises e, srv) ->
  isinstance e Client.normalized = true ->
  fst (invoke transport c w) = Raises (Exn JsonstoreError (exn_str e)).
Proof.
  intros Hreq Htr Hlisted. rewrite (raised_outcome c w req e srv Hreq Htr).
  cbn [normalize]. by rewrite Hlisted.
Qed.

(** X5: whatever the operation, when the HTTP call raises an exception
    of any other class, the caller gets that very exception. *)
Theorem unlisted_exception_propagates c w req e srv :
  issued transport c w = [req] ->
  transport req (server w) = (Raises e, srv) ->
  isinstance e Client.normalized = false ->
  fst (invoke transport c w) = Raises e.
Proof.
  intros Hreq Htr Hunlisted. rewrite (raised_outcome c w req e srv Hreq Htr).
  cbn [normalize]. by rewrite Hunlisted.
Qed.

(** X6: whatever the operation, when the status is no error status and
    the body is not valid JSON, the message of the [JsonstoreError] is
    the decoder's diagnostic. *)
Theorem decode_error_keeps_its_message c w req r srv diagnostic :
  issued transport c w = [req] ->
  transport req (server w) = (Returns r, srv) ->
  ~ http_error r ->
  content r = Undecodable diagnostic ->
  fst (invoke transport c w) = Raises (Exn JsonstoreError diagnostic).
Proof.
  intros Hreq Htr Hstatus Hbody.
  rewrite (answered_outcome transport c w req r srv Hreq Htr).
  by rewrite (check_undecodable r diagnostic _ Hstatus Hbody).
Qed.

(** X7: [post], [put] and [delete] do not look at ['result']: on an
    answer whose body is a JSON object they return normally exactly when
    the status is no error status and ['ok'] is present and truthy. *)
Theorem modifier_succeeds_iff c w req r srv d :
  issued transport c w = [req] ->
  transport req (server w) = (Returns r, srv) ->
  envelope_fields r d ->
  (forall key timeout, c <> Get key timeout) ->
  fst (invoke transport c w) = Returns PNone <->
  ~ http_error r /\ exists ok, dict_get "ok" d = Some ok /\ truthy ok = true.
Proof.
  intros Hreq Htr (members & Hbody & Hloads) Hmod.
  rewrite (answered_outcome transport c w req r srv Hreq Htr).
  destruct (decide (http_error r)) as [Herr|Hstatus].
  - destruct (check_http_error r (after transport req w) Herr) as [msg ->].
    cbn. split; [discriminate | intros [Hne _]; contradiction].
  - rewrite (check_dict r _ d _ Hstatus Hbody Hloads).
    destruct (dict_get "ok" d) as [ok|]; [destruct (truthy ok) eqn:Ht |].
    + destruct c as [key t| | |]; [by destruct (Hmod key t) | | |];
        (split; [intros _; split; [exact Hstatus | by exists ok] | reflexivity]).
    + cbn. split; [discriminate | intros [_ (ok' & [= <-] & Ht')]; congruence].
    + cbn. split; [discriminate | intros [_ (ok' & [=] & _)]].
Qed.

(** X8: when the status is no error status and the body is a JSON
    object with a truthy ['ok'] but no ['result'], [get] raises a
    [JsonstoreError] whose message is the quoted key, ['result']. *)
Theorem missing_result_message key timeout w req r srv d ok :
  issued transport (Get key timeout) w = [req] ->
  transport req (server w) = (Returns r, srv) ->
  ~ http_error r ->
  envelope_fields r d ->
  dict_get "ok" d = Some ok -> truthy ok = true ->
  dict_get "result" d = None ->
  fst (Client.get transport key timeout w) =
  Raises (Exn JsonstoreError "'result'").
Proof.
  intros Hreq Htr Hstatus (members & Hbody & Hloads) Hok Ht Hres.
  change (Client.get transport key timeout) with
    (invoke transport (Get key timeout)).
  rewrite (answered_outcome transport _ w req r srv Hreq Htr).
  rewrite (check_dict r _ d _ Hstatus Hbody Hloads), Hok, Ht.
  cbn [py_getitem]. by rewrite Hres.
Qed.

(** X9: whatever the operation, when the status is no error status and
    the body is a JSON object in which ['ok'] is absent or falsy, the
    [JsonstoreError] raised by the check reaches the caller as it is,
    with the message ['Call to jsonstore failed']. *)
Theorem failed_call_message c w req r srv d :
  issued transport c w = [req] ->
  transport req (server w) = (Returns r, srv) ->
  ~ http_error r ->
  envelope_fields r d ->
  (dict_get "ok" d = None \/
   exists ok, dict_get "ok" d = Some ok /\ truthy ok = false) ->
  fst (invoke transport c w) =
  Raises (Exn JsonstoreError "Call to jsonstore failed").
Proof.
  intros Hreq Htr Hstatus (members & Hbody & Hloads) Hok.
  rewrite (answered_outcome transport c w req r srv Hreq Htr).
  rewrite (check_dict r _ d _ Hstatus Hbody Hloads).
  by destruct Hok as [-> | (ok & -> & ->)].
Qed.

Lemma normalize_raises {A} (e0 e : exn) :
  @normalize A (Raises e0) = Raises e ->
  (isinstance e0 Client.normalized = true /\ exn_type e = JsonstoreError) \/
  (isinstance e0 Client.normalized = false /\ e = e0).
Proof.
  cbn [normalize]. destruct (isinstance e0 Client.normalized); intros [= <-].
  - by left.
  - by right.
Qed.

Lemma getitem_raises v key w e :
  fst (py_getitem v key w) = Raises e ->
  exn_type e = KeyError \/ exn_type e = TypeError.
Proof.
  destruct v; cbn [py_getitem]; try (intros [= <-]; by right).
  destruct (dict_get key entries); [discriminate |]. intros [= <-]. by left.
Qed.

(** The exceptions the check can end in. *)
Lemma check_raises r w e :
  fst (Client.__check_response (OResponse r) w) = Raises e ->
  isinstance e Client.normalized = true \/ exn_type e = TypeError \/
  exn_type e = JsonstoreError.
Proof.
  destruct (decide (http_error r)) as [Herr|Hstatus].
  { destruct (check_http_error r w Herr) as [msg ->]. intros [= <-]. by left. }
  destruct (content r) as [diagnostic|doc] eqn:Hbody.
  { rewrite (check_undecodable r diagnostic w Hstatus Hbody).
    intros [= <-]. by left. }
  destruct (loads doc) as [ | b | n | s | l | l | d | s | f | ] eqn:Hloads.
  10: { rewrite (check_decoded r doc w Hstatus Hbody), Hloads.
        intros [= <-]. right. by right. }
  9: { rewrite (check_decoded r doc w Hstatus Hbody), Hloads.
       intros [= <-]. right. by left. }
  8: { rewrite (check_decoded r doc w Hstatus Hbody), Hloads.
       intros [= <-]. right. by left. }
  7: { rewrite (check_dict r doc d w Hstatus Hbody Hloads).
       destruct (dict_get "ok" d) as [ok|]; [destruct (truthy ok) |];
         [discriminate | |]; intros [= <-]; right; by right. }
  all: rewrite (check_decoded r doc w Hstatus Hbody), Hloads;
    cbn [py_contains py_getitem]; unfold bind at 1; cbn [ret raise];
    try (intros [= <-]; right; by left).
  - destruct (str_contains "ok" s); cbn; intros [= <-]; right; [by left | by right].
  - destruct (existsb (str_eq "ok") l); cbn; intros [= <-]; right;
      [by left | by right].
  - destruct (existsb (str_eq "ok") l); cbn; intros [= <-]; right;
      [by left | by right].
Qed.

(** X10: an operation that raises, raises a [JsonstoreError] or a
    [TypeError], or the [ValueError] of [json.dumps] on a payload that
    contains itself, before anything is sent, or else the very exception
    the HTTP call raised, of a class the [except] clause does not list.
    No [HTTPError], decoding error or [KeyError] of the client's own
    making reaches the caller. *)
Theorem raised_exception_classes c w e :
  fst (invoke transport c w) = Raises e ->
  exn_type e = JsonstoreError \/ exn_type e = TypeError \/
  (e = Exn ValueError "Circular reference detected" /\
   issued transport c w = []) \/
  exists req,
    issued transport c w = [req] /\
    fst (transport req (server w)) = Raises e /\
    isinstance e Client.normalized = false.
Proof.
  destruct (call_body c) as [body|] eqn:Hbody.
  - rewrite (invoke_outcome transport c w body Hbody). cbv zeta.
    destruct (fst (transport _ (server w))) as [r|e0] eqn:Htr.
    + destruct (fst (Client.__check_response _ _)) as [j|e0] eqn:Hcheck.
      * assert (forall e1 w', fst (py_getitem j "result" w') = Raises e1 ->
                  @normalize pyval (Raises e1) = Raises e ->
                  exn_type e = JsonstoreError \/ exn_type e = TypeError) as Hget.
        { intros e1 w' Hraise Hn.
          apply normalize_raises in Hn as [[_ Hn] | [Hunlisted ->]]; [by left |].
          apply getitem_raises in Hraise as [Hk | Ht]; [| by right].
          destruct e1 as [cls msg]. cbn in Hk. subst cls. discriminate. }
        destruct c as [key t| | |]; try discriminate.
        destruct (fst (py_getitem j "result" _)) as [v|e1] eqn:Hitem;
          [discriminate |].
        intros Hn. destruct (Hget e1 _ Hitem Hn) as [H|H]; [by left | right; by left].
      * intros Hn. apply check_raises in Hcheck.
        apply normalize_raises in Hn as [[_ Hn] | [Hunlisted ->]]; [by left |].
        destruct Hcheck as [Hlisted | [Ht | Hj]];
          [congruence | right; by left | by left].
    + intros Hn. apply normalize_raises in Hn as [[_ Hn] | [Hunlisted ->]];
        [by left |].
      right. right. right. exists (call_request c w body).
      rewrite invoke_issued, Hbody. by repeat split.
  - rewrite invoke_issued, Hbody.
    destruct c as [key t|key data t|key data t|key t]; try discriminate;
      cbn [call_body] in Hbody; (destruct (dumps data) eqn:Hd; [discriminate |]);
      cbn [invoke]; unfold bind at 1; [unfold Client.post | unfold Client.put];
      unfold json_dumps; rewrite Hd;
      (destruct (dumps_raises_class data) as [-> | ->]; cbn; intros [= <-];
       [right; by left | right; right; by left]).
Qed.

End Propagation.

(** ** Traffic *)

Section Traffic.

Context {Server : Type}.
Variable transport : Request -> Server -> outcome Response * Server.
Implicit Types w : World Server.

(** X11: each method uses the HTTP verb of its name; [get] and [delete]
    send no body, [post] and [put] send the serialized payload, and send
    nothing at all when the payload cannot be serialized. *)
Theorem verb_and_body key data timeout w :
  (fun req => (req_method req, req_data req)) <$>
    issued transport (Get key timeout) w = [(GET, None)] /\
  (fun req => (req_method req, req_data req)) <$>
    issued transport (Delete key timeout) w = [(DELETE, None)] /\
  (fun req => (req_method req, req_data req)) <$>
    issued transport (Post key data timeout) w =
    match dumps data with Some text => [(POST, Some text)] | None => [] end /\
  (fun req => (req_method req, req_data req)) <$>
    issued transport (Put key data timeout) w =
    match dumps data with Some text => [(PUT, Some text)] | None => [] end.
Proof.
  rewrite !invoke_issued. cbn [call_body].
  repeat split; try reflexivity; by destruct (dumps data).
Qed.

(** X12: a sequence of calls only appends to the trace, one request for
    each call whose payload, if it has one, can be serialized: no call is
    retried, whatever its outcome, and none is skipped. *)
Theorem session_sends_one_request_per_call calls w :
  exists more,
    sent (session transport calls w) = sent w ++ more /\
    length more = length (omap call_body calls).
Proof.
  revert w. induction calls as [|c calls IH]; intros w.
  - exists []. by rewrite app_nil_r.
  - change (session transport (c :: calls) w) with
      (session transport calls (snd (invoke transport c w))).
    destruct (IH (snd (invoke transport c w))) as (more & E & L).
    rewrite invoke_sent in E.
    destruct (call_body c) as [body|] eqn:Hbody.
    + exists (call_request c w body :: more). rewrite E, <- app_assoc.
      split; [reflexivity | cbn; rewrite Hbody; cbn; by rewrite L].
    + exists more. rewrite E, app_nil_r.
      split; [reflexivity | cbn; by rewrite Hbody].
Qed.

(** X13: on one client, requests of calls for different keys go to
    different URLs. *)
Theorem distinct_keys_distinct_urls c1 c2 w req1 req2 :
  issued transport c1 w = [req1] ->
  issued transport c2 w = [req2] ->
  call_key c1 <> call_key c2 ->
  req_url req1 <> req_url req2.
Proof.
  intros H1 H2 Hkeys Hurl.
  apply issued_inv in H1 as (b1 & _ & ->). apply issued_inv in H2 as (b2 & _ & ->).
  rewrite !call_request_url in Hurl.
  apply String.app_inj in Hurl. apply String.app_inj in Hurl. contradiction.
Qed.

End Traffic.

(** ** Values read and written *)

Lemma json_nested_ind (P : json -> Prop) :
  P JNull -> (forall b, P (JBool b)) -> (forall n, P (JNumber n)) ->
  (forall s, P (JString s)) ->
  (forall l, Forall P l -> P (JArray l)) ->
  (forall ms, Forall (fun m => P m.2) ms -> P (JObject ms)) ->
  (forall r, P (JFloat r)) ->
  forall j, P j.
Proof.
  intros HNull HBool HNumber HString HArray HObject HFloat.
  fix IH 1. intros [ | b | n | s | l | ms | r].
  - exact HNull.
  - apply HBool.
  - apply HNumber.
  - apply HString.
  - apply HArray. induction l as [|x l IHl]; constructor; [apply IH | exact IHl].
  - apply HObject. induction ms as [|[name x] ms IHms]; constructor;
      [apply IH | exact IHms].
  - apply HFloat.
Qed.

Lemma dict_set_keys k v d key :
  key ∈ (dict_set k v d).*1 -> key ∈ d.*1 \/ key = PStr k.
Proof.
  induction d as [|[k' v'] d IH]; cbn [dict_set].
  - cbn. intros H. apply list_elem_of_singleton in H. by right.
  - destruct (str_eq k k'); cbn; rewrite !elem_of_cons; [by left |].
    intros [-> | H]; [left; by left |].
    destruct (IH H) as [Hin | ->]; [left; by right | by right].
Qed.

(** Assignments keep a dictionary of distinct string keys and JSON
    values what it is. *)
Lemma dict_set_value k v d :
  json_value v -> json_value (PDict d) -> json_value (PDict (dict_set k v d)).
Proof.
  intros Hv Hd. inversion Hd as [ | | | | | | ? Hall Hnd]; subst.
  induction d as [|[k' v'] d IH]; cbn [dict_set].
  - apply value_dict.
    + constructor; [| constructor]. split; [by exists k | exact Hv].
    + cbn. apply NoDup_singleton.
  - apply Forall_cons in Hall as [[[name Hname] Hv'] Hall].
    cbn in Hname, Hv', Hnd. subst k'. apply NoDup_cons in Hnd as [Hnotin Hnd].
    destruct (str_eq k (PStr name)) eqn:Heq.
    + apply value_dict.
      * constructor; [split; [by exists name | exact Hv] | exact Hall].
      * cbn. apply NoDup_cons. by split.
    + specialize (IH (value_dict d Hall Hnd) Hall Hnd).
      inversion IH as [ | | | | | | ? Hall' Hnd']; subst.
      apply value_dict.
      * constructor; [split; [by exists name | exact Hv'] | exact Hall'].
      * cbn. apply NoDup_cons. split; [| exact Hnd'].
        intros Hin. apply dict_set_keys in Hin as [Hin | [= ->]];
          [contradiction |].
        cbn in Heq. by rewrite String.eqb_refl in Heq.
Qed.

(** Whatever [json.loads] yields is a JSON value. *)
Lemma loads_value j : json_value (loads j).
Proof.
  induction j as [ | b | n | s | l IHl | ms IHms | r] using json_nested_ind;
    cbn [loads]; try (by constructor).
  - apply value_list. induction IHl as [|x l Hx _ IH]; constructor;
      [exact Hx | exact IH].
  - assert (Hempty : json_value (PDict [])).
    { apply value_dict; constructor. }
    revert Hempty. generalize (@nil (pyval * pyval)) as d.
    induction IHms as [|[name x] ms Hx _ IH]; intros d Hd; [exact Hd |].
    cbn [fold_left]. apply IH. by apply dict_set_value.
Qed.

Lemma value_dict_get d key v :
  json_value (PDict d) -> dict_get key d = Some v -> json_value v.
Proof.
  intros Hd. inversion Hd as [ | | | | | | ? Hall _]; subst. clear Hd.
  induction Hall as [|[k' v'] d [_ Hv'] _ IH]; cbn [dict_get]; [discriminate |].
  destruct (str_eq key k'); [intros [= <-]; exact Hv' | exact IH].
Qed.

(** [json.dumps] accepts every JSON value. *)
Lemma value_dumps v : json_value v -> exists text, dumps v = Some text.
Proof.
  induction v as [ | b | n | s | l IHl | l IHl | d IHd | s | r | ]
    using pyval_nested_ind; intros Hv;
    inversion Hv as [ | | | | | ? Hl | ? Hd Hnd]; subst;
    try (eexists; reflexivity).
  - assert (exists js, mapM dumps l = Some js) as [js E].
    { clear Hv. induction l as [|x l IH]; [by exists [] |].
      apply Forall_cons in IHl as [Hx IHl]. apply Forall_cons in Hl as [Vx Hl].
      destruct (Hx Vx) as [j Ej]. destruct (IH IHl Hl) as [js E].
      exists (j :: js). cbn. by rewrite Ej, E. }
    exists (JArray js). cbn [dumps]. by rewrite E.
  - set (enc := fun '(k, x) =>
                  match dumps_key k, dumps x with
                  | Some name, Some j => Some (name, j)
                  | _, _ => None
                  end).
    assert (exists ms, mapM enc d = Some ms) as [ms E].
    { clear Hv Hnd. induction d as [|[k x] d IH]; [by exists [] |].
      apply Forall_cons in IHd as [[_ Hx] IHd].
      apply Forall_cons in Hd as [[[name Hk] Vx] Hd]. simpl in Hk, Vx, Hx. subst k.
      destruct (Hx Vx) as [j Ej]. destruct (IH IHd Hd) as [ms E].
      exists ((name, j) :: ms). cbn. rewrite Ej. cbn. by rewrite E. }
    exists (JObject ms). cbn [dumps]. fold enc. by rewrite E.
Qed.

Section Values.

Context {Server : Type}.
Variable transport : Request -> Server -> outcome Response * Server.
Implicit Types w : World Server.

(** What the check returns is the decoded body. *)
Lemma check_returns r w j :
  fst (Client.__check_response (OResponse r) w) = Returns j ->
  exists doc, content r = Document doc /\ j = loads doc.
Proof.
  destruct (decide (http_error r)) as [Herr|Hstatus].
  { by destruct (check_http_error r w Herr) as [msg ->]. }
  destruct (content r) as [diagnostic|doc] eqn:Hbody.
  { by rewrite (check_undecodable r diagnostic w Hstatus Hbody). }
  rewrite (check_decoded r doc w Hstatus Hbody). intros H. exists doc.
  split; [reflexivity |]. revert H. unfold bind.
  destruct (py_contains "ok" (loads doc) w) as [[has_ok|e] w1]; [| discriminate].
  destruct has_ok; cbn [negb]; [| discriminate].
  destruct (py_getitem (loads doc) "ok" w1) as [[ok|e] w2]; [| discriminate].
  cbn [ret]. destruct (negb (truthy ok)); [discriminate |]. by intros [= <-].
Qed.

(** X14: whatever [get] returns is a value [json.loads] produces:
    [None], a boolean, an integer, a float, a string, a list or a
    dictionary with distinct string keys of such values.  [json.dumps]
    accepts it, as [post] and [put] would need; and when there is no
    float in it, [json.loads] of the result gives it back. *)
Theorem get_returns_json_value key timeout w v :
  fst (Client.get transport key timeout w) = Returns v ->
  json_value v /\
  exists text, dumps v = Some text /\ (json_native v -> loads text = v).
Proof.
  change (Client.get transport key timeout) with
    (invoke transport (Get key timeout)).
  rewrite (invoke_outcome transport (Get key timeout) w None eq_refl). cbv zeta.
  intros H. assert (Hv : json_value v); [| split; [exact Hv |]].
  - destruct (fst (transport _ (server w))) as [r|e].
    + destruct (fst (Client.__check_response _ _)) as [j|e] eqn:Hcheck.
      * apply check_returns in Hcheck as (doc & _ & ->).
        destruct (loads doc) as [ | | | | | | d | | | ] eqn:Hloads;
          try discriminate.
        cbn [py_getitem] in H.
        destruct (dict_get "result" d) as [v'|] eqn:Hres; [| discriminate].
        injection H as <-. apply (value_dict_get d "result"); [| exact Hres].
        rewrite <- Hloads. apply loads_value.
      * cbn [normalize] in H. by destruct (isinstance e Client.normalized).
    + cbn [normalize] in H. by destruct (isinstance e Client.normalized).
  - destruct (value_dumps v Hv) as [text Htext]. exists text.
    split; [exact Htext |]. intros Hn.
    destruct (native_round_trip v Hn) as (j & Ej & Rj). congruence.
Qed.

(** X15: after a successful [put] of [value] under [key], a [get] of
    [key] that the service answers with the document it was sent returns
    [json.loads(json.dumps(value))], which is [value] itself when [value]
    is a JSON value. *)
Theorem put_then_get_round_trip key value t1 t2 w w1 body req r srv :
  Client.put transport key value t1 w = (Returns tt, w1) ->
  req_data <$> issued transport (Put key value t1) w = [Some body] ->
  issued transport (Get key t2) w1 = [req] ->
  transport req (server w1) = (Returns r, srv) ->
  ~ http_error r ->
  content r = Document (JObject [("ok", JBool true); ("result", body)]) ->
  fst (Client.get transport key t2 w1) = Returns (loads body) /\
  (json_native value -> loads body = value).
Proof.
  intros _ Hsent Hreq Htr Hstatus Hbody.
  assert (Hd : dumps value = Some body).
  { rewrite invoke_issued in Hsent. cbn [call_body] in Hsent.
    destruct (dumps value) as [text|]; [| discriminate].
    by injection Hsent as ->. }
  split.
  - change (Client.get transport key t2) with (invoke transport (Get key t2)).
    rewrite (answered_outcome transport _ w1 req r srv Hreq Htr).
    by rewrite (check_dict r _ _ _ Hstatus Hbody eq_refl).
  - intros Hn. destruct (native_round_trip value Hn) as (j & Ej & Rj).
    congruence.
Qed.

End Values.

(** ** More concrete runs *)


Lemma array_body_witness :
  ((JString "ok" ∈ [JString "ok"; JNumber 1]) /\
   exists msg,
     fst (invoke (canned (response_of 200 (Document (JArray [JString "ok"; JNumber 1]))))
            (Get "k" None) (fresh "tok" tt)) =
     Raises (Exn TypeError msg)) \/
  ((JString "ok" ∉ [JString "ok"; JNumber 1]) /\
   fst (invoke (canned (response_of 200 (Document (JArray [JString "ok"; JNumber 1]))))
          (Get "k" None) (fresh "tok" tt)) =
   Raises (Exn JsonstoreError "Call to jsonstore failed")).
Proof.
  apply (array_body_outcome
           (canned (response_of 200 (Document (JArray [JString "ok"; JNumber 1]))))
           (Get "k" None) (fresh "tok" tt)
           (call_request (Get "k" None) (fresh "tok" tt) None)
           (response_of 200 (Document (JArray [JString "ok"; JNumber 1]))) tt
           [JString "ok"; JNumber 1]).
  - reflexivity.
  - reflexivity.
  - unfold http_error. cbn. lia.
  - reflexivity.
Defined.

Lemma string_body_witness :
  (str_contains "ok" "broken" = true /\
   exists msg,
     fst (invoke (canned (response_of 200 (Document (JString "broken"))))
            (Put "k" (PInt 1) None) (fresh "tok" tt)) =
     Raises (Exn TypeError msg)) \/
  (str_contains "ok" "broken" = false /\
   fst (invoke (canned (response_of 200 (Document (JString "broken"))))
          (Put "k" (PInt 1) None) (fresh "tok" tt)) =
   Raises (Exn JsonstoreError "Call to jsonstore failed")).
Proof.
  apply (string_body_outcome
           (canned (response_of 200 (Document (JString "broken"))))
           (Put "k" (PInt 1) None) (fresh "tok" tt)
           (call_request (Put "k" (PInt 1) None) (fresh "tok" tt)
              (Some (JNumber 1)))
           (response_of 200 (Document (JString "broken"))) tt "broken").
  - reflexivity.
  - reflexivity.
  - unfold http_error. cbn. lia.
  - reflexivity.
Defined.

Lemma listed_exception_witness :
  fst (invoke (unreachable (Exn Timeout "Read timed out"))
         (Post "k" (PInt 1) None) (fresh "tok" tt)) =
  Raises (Exn JsonstoreError "Read timed out").
Proof.
  apply (listed_exception_keeps_its_message
           (unreachable (Exn Timeout "Read timed out"))
           (Post "k" (PInt 1) None) (fresh "tok" tt)
           (call_request (Post "k" (PInt 1) None) (fresh "tok" tt)
              (Some (JNumber 1)))
           (Exn Timeout "Read timed out") tt).
  - reflexivity.
  - reflexivity.
  - reflexivity.
Defined.

Lemma unlisted_exception_witness :
  fst (invoke (unreachable (Exn TypeError "timeout must be a number"))
         (Delete "k" (Some (PStr "soon"))) (fresh "tok" tt)) =
  Raises (Exn TypeError "timeout must be a number").
Proof.
  apply (unlisted_exception_propagates
           (unreachable (Exn TypeError "timeout must be a number"))
           (Delete "k" (Some (PStr "soon"))) (fresh "tok" tt)
           (call_request (Delete "k" (Some (PStr "soon"))) (fresh "tok" tt) None)
           (Exn TypeError "timeout must be a number") tt).
  - reflexivity.
  - reflexivity.
  - reflexivity.
Defined.

Lemma decode_error_witness :
  fst (invoke (canned (response_of 200 (Undecodable "Expecting value")))
         (Post "k" (PInt 1) None) (fresh "tok" tt)) =
  Raises (Exn JsonstoreError "Expecting value").
Proof.
  apply (decode_error_keeps_its_message
           (canned (response_of 200 (Undecodable "Expecting value")))
           (Post "k" (PInt 1) None) (fresh "tok" tt)
           (call_request (Post "k" (PInt 1) None) (fresh "tok" tt)
              (Some (JNumber 1)))
           (response_of 200 (Undecodable "Expecting value")) tt).
  - reflexivity.
  - reflexivity.
  - unfold http_error. cbn. lia.
  - reflexivity.
Defined.

Lemma modifier_succeeds_witness :
  fst (invoke (canned (response_of 201 (Document (JObject [("ok", JBool true)]))))
         (Delete "k" None) (fresh "tok" tt)) = Returns PNone.
Proof.
  apply (modifier_succeeds_iff
           (canned (response_of 201 (Document (JObject [("ok", JBool true)]))))
           (Delete "k" None) (fresh "tok" tt)
           (call_request (Delete "k" None) (fresh "tok" tt) None)
           (response_of 201 (Document (JObject [("ok", JBool true)]))) tt
           [(PStr "ok", PBool true)]).
  - reflexivity.
  - reflexivity.
  - eexists. split; reflexivity.
  - discriminate.
  - split; [unfold http_error; cbn; lia |].
    exists (PBool true). split; reflexivity.
Defined.

Lemma missing_result_witness :
  fst (Client.get (canned (response_of 200 (Document (JObject [("ok", JBool true)]))))
         "k" None (fresh "tok" tt)) =
  Raises (Exn JsonstoreError "'result'").
Proof.
  apply (missing_result_message
           (canned (response_of 200 (Document (JObject [("ok", JBool true)]))))
           "k" None (fresh "tok" tt)
           (call_request (Get "k" None) (fresh "tok" tt) None)
           (response_of 200 (Document (JObject [("ok", JBool true)]))) tt
           [(PStr "ok", PBool true)] (PBool true)).
  - reflexivity.
  - reflexivity.
  - unfold http_error. cbn. lia.
  - eexists. split; reflexivity.
  - reflexivity.
  - reflexivity.
  - reflexivity.
Defined.

Lemma raised_exception_classes_witness :
  exn_type (Exn ValueError "Circular reference detected") = JsonstoreError \/
  exn_type (Exn ValueError "Circular reference detected") = TypeError \/
  (Exn ValueError "Circular reference detected" =
     Exn ValueError "Circular reference detected" /\
   issued (canned (response_of 200 (Document success_body)))
     (Post "k" (PList [PBack]) None) (fresh "tok" tt) = []) \/
  exists req,
    issued (canned (response_of 200 (Document success_body)))
      (Post "k" (PList [PBack]) None) (fresh "tok" tt) = [req] /\
    fst (canned (response_of 200 (Document success_body)) req
           (server (fresh "tok" tt))) =
      Raises (Exn ValueError "Circular reference detected") /\
    isinstance (Exn ValueError "Circular reference detected")
      Client.normalized = false.
Proof.
  apply (raised_exception_classes
           (canned (response_of 200 (Document success_body)))
           (Post "k" (PList [PBack]) None) (fresh "tok" tt)
           (Exn ValueError "Circular reference detected")).
  reflexivity.
Defined.

Lemma distinct_keys_witness :
  req_url (call_request (Get "a" None) (fresh "tok" tt) None) <>
  req_url (call_request (Delete "b" None) (fresh "tok" tt) None).
Proof.
  apply (distinct_keys_distinct_urls
           (canned (response_of 200 (Document success_body)))
           (Get "a" None) (Delete "b" None) (fresh "tok" tt)).
  - reflexivity.
  - reflexivity.
  - discriminate.
Defined.

Lemma get_returns_json_value_witness :
  json_value (PInt 7) /\
  exists text, dumps (PInt 7) = Some text /\
               (json_native (PInt 7) -> loads text = PInt 7).
Proof.
  apply (get_returns_json_value
           (canned (response_of 200 (Document success_body))) "k" None
           (fresh "tok" tt) (PInt 7)).
  reflexivity.
Defined.

Lemma put_then_get_round_trip_witness :
  fst (Client.get memory_service "k" None
         (snd (Client.put memory_service "k" sample_value None
                 (fresh "tok" empty_store)))) = Returns sample_value.
Proof.
  destruct (put_then_get_round_trip memory_service "k" sample_value None None
              (fresh "tok" empty_store)
              (snd (Client.put memory_service "k" sample_value None
                      (fresh "tok" empty_store)))
              (JObject [("name", JString "a");
                        ("tags", JArray [JNumber 1; JNull])])
              (call_request (Get "k" None) (fresh "tok" empty_store) None)
              {| status_code := 200; reason := "OK";
                 url := "https://www.jsonstore.io/tok/k";
                 content :=
                   Document
                     (JObject
                        [("ok", JBool true);
                         ("result",
                          JObject [("name", JString "a");
                                   ("tags", JArray [JNumber 1; JNull])])]) |}
              (<["https://www.jsonstore.io/tok/k" :=
                   JObject [("name", JString "a");
                            ("tags", JArray [JNumber 1; JNull])]]> empty_store))
    as [Hget Hsame].
  - reflexivity.
  - reflexivity.
  - reflexivity.
  - reflexivity.
  - unfold http_error. cbn. lia.
  - reflexivity.
  - rewrite Hget, Hsame; [reflexivity | exact sample_value_native].
Defined.

Lemma failed_call_message_witness :
  fst (invoke (canned (response_of 200 (Document (JObject [("ok", JNull)]))))
         (Put "k" (PInt 1) None) (fresh "tok" tt)) =
  Raises (Exn JsonstoreError "Call to jsonstore failed").
Proof.
  apply (failed_call_message
           (canned (response_of 200 (Document (JObject [("ok", JNull)]))))
           (Put "k" (PInt 1) None) (fresh "tok" tt)
           (call_request (Put "k" (PInt 1) None) (fresh "tok" tt)
              (Some (JNumber 1)))
           (response_of 200 (Document (JObject [("ok", JNull)]))) tt
           [(PStr "ok", PNone)]).
  - reflexivity.
  - reflexivity.
  - unfold http_error. cbn. lia.
  - eexists. split; reflexivity.
  - right. exists PNone. split; reflexivity.
Defined.
